(** * PivotPath career advisor (app.py): prediction / fallback pipeline

    A shallow embedding of the Streamlit script [app.py].  The script is
    straight-line Python with [try]/[except] blocks around the calls into
    externally supplied artifacts (models, scaler, encoders).  It is modelled
    here with

    - an exception monad ([Py.result]) for everything that can raise,
    - insertion-ordered association lists for Python dicts,
    - IEEE-754 binary64 arithmetic ([SpecFloat], precision 53, emax 1024)
      for Python floats,
    - records of capabilities for the duck-typed artifact objects, the
      truth test [bool(o)] among them.

    Exceptions in the model are instances of Python's [Exception] class,
    the class every handler of the script names. *)

From Stdlib Require Import ZArith List String Ascii Bool Lia.
From Stdlib Require Import Floats.SpecFloat.
From Stdlib Require Import DecimalString DecimalZ DecimalPos.
From Stdlib Require FinFun.
Import ListNotations.
Local Open Scope string_scope.
Local Open Scope Z_scope.

(* ===================================================================== *)
(** ** Python run-time model *)
(* ===================================================================== *)

Module Py.

(** Exceptions that the script and its collaborators can raise. *)
Inductive exn : Type :=
| NameError (name : string)
| KeyError (key : string)
| AttributeError
| TypeError
| ValueError
| OverflowError
| OSError
| OtherError (msg : string).

Inductive result (A : Type) : Type :=
| Ok (a : A)
| Raise (e : exn).
Arguments Ok {A} a.
Arguments Raise {A} e.

Definition bind {A B} (c : result A) (k : A -> result B) : result B :=
  match c with
  | Ok a => k a
  | Raise e => Raise e
  end.

(** [try: c  except Exception: h] *)
Definition try_except {A} (c : result A) (h : exn -> result A) : result A :=
  match c with
  | Ok a => Ok a
  | Raise e => h e
  end.

Definition raises {A} (c : result A) : Prop := exists e, c = Raise e.

(** *** dict: association list in insertion order, one entry per key *)

Definition dict (V : Type) : Type := list (string * V).

Fixpoint get {V} (d : dict V) (k : string) : option V :=
  match d with
  | [] => None
  | (k', v) :: d' => if String.eqb k k' then Some v else get d' k
  end.

(** [d.get(k, dflt)] *)
Definition get_default {V} (d : dict V) (k : string) (dflt : V) : V :=
  match get d k with
  | Some v => v
  | None => dflt
  end.

(** [d[k]] *)
Definition getitem {V} (d : dict V) (k : string) : result V :=
  match get d k with
  | Some v => Ok v
  | None => Raise (KeyError k)
  end.

(** [d[k] = v]: overwrite in place, or append a new key *)
Fixpoint setitem {V} (d : dict V) (k : string) (v : V) : dict V :=
  match d with
  | [] => [(k, v)]
  | (k', v') :: d' =>
      if String.eqb k k' then (k', v) :: d' else (k', v') :: setitem d' k v
  end.

(** [d.setdefault(k, v)] (the returned value is not used by the script) *)
Definition setdefault {V} (d : dict V) (k : string) (v : V) : dict V :=
  match get d k with
  | Some _ => d
  | None => setitem d k v
  end.

Definition keys {V} (d : dict V) : list string := map fst d.

(** [x in xs] for a list of strings *)
Definition contains (xs : list string) (x : string) : bool :=
  existsb (String.eqb x) xs.

(** *** float: IEEE-754 binary64 *)

Definition prec : Z := 53.
Definition emax : Z := 1024.
Definition float : Type := spec_float.

Definition fmul (x y : float) : float := SFmul prec emax x y.
Definition fadd (x y : float) : float := SFadd prec emax x y.

(** [float(n)] for an int [n]: correctly rounded, [OverflowError] when
    the int does not fit a double. *)
Definition float_of_int (n : Z) : result float :=
  match binary_normalize prec emax n 0 false with
  | S754_infinity _ => Raise OverflowError
  | f => Ok f
  end.

(** [int(x)] for a float [x]: truncation toward zero. *)
Definition int_of_float (x : float) : result Z :=
  match x with
  | S754_nan => Raise ValueError
  | S754_infinity _ => Raise OverflowError
  | S754_zero _ => Ok 0
  | S754_finite s m e =>
      let a := match e with
               | Z0 => Zpos m
               | Zpos p => Z.shiftl (Zpos m) (Zpos p)
               | Zneg p => Z.shiftr (Zpos m) (Zpos p)
               end in
      Ok (if s then - a else a)
  end.

(** [n * x] and [n + x] with an int on the left: the int is converted
    first. *)
Definition int_mul_float (n : Z) (x : float) : result float :=
  bind (float_of_int n) (fun f => Ok (fmul f x)).
Definition int_add_float (n : Z) (x : float) : result float :=
  bind (float_of_int n) (fun f => Ok (fadd f x)).

(** The literal [0.06]: 0x1.eb851eb851eb8p-5. *)
Definition lit_0_06 : float := S754_finite false 8646911284551352 (-57).
(** The literal [82.0]. *)
Definition lit_82_0 : float := S754_finite false 5770237022568448 (-46).

End Py.

Import Py.

Notation "x <- c ;; k" := (Py.bind c (fun x => k))
  (at level 61, c at next level, right associativity).

(** [a == b] on Python strings *)
Infix "==" := String.eqb (at level 70, no associativity).

(* ===================================================================== *)
(** ** Heuristic salary (lines 376-391) *)
(* ===================================================================== *)

Definition BASE_BY_ROLE_INR : dict Z :=
  [ ("Data Scientist", 900000);
    ("Frontend Engineer", 700000);
    ("System Administrator", 500000);
    ("UI/UX Designer", 600000);
    ("Product Manager", 1000000);
    ("Junior Data Analyst", 350000);
    ("Frontend Developer", 650000);
    ("Technical Support Engineer", 300000);
    ("Junior UI/UX Designer", 350000);
    ("Marketing Analyst", 350000) ].

(** [int(base * (1 + min(years_exp, 10) * 0.06))] *)
Definition experience_adjust (base years_exp : Z) : result Z :=
  c <- int_mul_float (Z.min years_exp 10) lit_0_06 ;;
  f <- int_add_float 1 c ;;
  p <- int_mul_float base f ;;
  int_of_float p.

Definition heuristic_salary (target_job : string) (years_exp : Z) : result Z :=
  let predicted_salary_inr := get_default BASE_BY_ROLE_INR target_job 450000 in
  experience_adjust predicted_salary_inr years_exp.

(* ===================================================================== *)
(** ** Values, frames and artifact objects *)
(* ===================================================================== *)

(** The Python values a feature-row cell can hold. *)
Inductive pyval : Type :=
| PyNone
| PyInt (n : Z)
| PyFloat (x : float)
| PyStr (s : string).

Definition is_numeric (v : pyval) : bool :=
  match v with
  | PyInt _ | PyFloat _ => true
  | PyNone | PyStr _ => false
  end.

(** A one-row [pandas.DataFrame]: the columns in order, each with its cell. *)
Definition frame : Type := list (string * pyval).

(** [pd.DataFrame([X])] *)
Definition DataFrame (X : dict pyval) : frame := X.

(** A label returned by a classifier, seen through [int(.)] and [str(.)]. *)
Record Label : Type := {
  label_int : result Z;
  label_str : result string
}.

(** An unpickled artifact.  The script is duck-typed: whatever object a
    file holds is used as a model, a scaler or an encoder, and a missing
    or failing method raises.  Each field is one use the script makes:
    - [py_bool]                [bool(o)]; it raises for some objects a
                               pickle can hold (a numpy array of several
                               elements, an unfitted ensemble)
    - [py_transform_int s]     [int(o.transform([s])[0])]
    - [py_inverse_transform n] [o.inverse_transform([n])[0]]
    - [py_scale df]            [df[df.columns] = o.transform(df[df.columns])]
    - [py_predict_float df]    [float(o.predict(df)[0])]
    - [py_predict_label df]    [o.predict(df)[0]] *)
Record PyObject : Type := {
  py_bool : result bool;
  py_transform_int : string -> result Z;
  py_inverse_transform : Z -> result string;
  py_scale : frame -> result frame;
  py_predict_float : frame -> result float;
  py_predict_label : frame -> result Label
}.

(** [bool(x)] for a variable holding an object or [None]. *)
Definition py_truth (o : option PyObject) : result bool :=
  match o with
  | Some x => py_bool x
  | None => Ok false
  end.

(** A model or scaler variable as the script has it below the status
    panel.  Lines 213-215 evaluate [bool(o)] of the salary model, the
    career model and the scaler on every run, outside any [try]: the run
    goes on only when each test returned, and [truthy] is the value it
    returned there.  The later tests of the same, unchanged object (lines
    277-279, 294, 358, 405, 420) give that value again.  The other fields
    are the object's methods, as in [PyObject]. *)
Record Obj : Type := {
  truthy : bool;
  transform_int : string -> result Z;
  inverse_transform : Z -> result string;
  scale : frame -> result frame;
  predict_float : frame -> result float;
  predict_label : frame -> result Label
}.

(** The object [o] after [bool(o)] returned [b]. *)
Definition tested (o : PyObject) (b : bool) : Obj :=
  {| truthy := b;
     transform_int := py_transform_int o;
     inverse_transform := py_inverse_transform o;
     scale := py_scale o;
     predict_float := py_predict_float o;
     predict_label := py_predict_label o |}.

(** Truth value of a truth-tested variable holding an object or [None]. *)
Definition is_true (o : option Obj) : bool :=
  match o with
  | Some x => truthy x
  | None => false
  end.

(** Truth value of a variable holding a feature-name list or [None]. *)
Definition schema_true (s : option (list string)) : bool :=
  match s with
  | Some (_ :: _) => true
  | Some [] | None => false
  end.

Definition schema_items (s : option (list string)) : result (list string) :=
  match s with
  | Some l => Ok l
  | None => Raise TypeError
  end.

(** The module-level variables as the script has them below the status
    panel: the two models and the scaler truth-tested, the encoders as
    they were loaded (the script tests their truth only at lines 307, 316,
    325, 414 and 429). *)
Record Assets : Type := {
  salary_model : option Obj;
  career_model : option Obj;
  scaler : option Obj;
  encoders : dict PyObject;
  feat_salary : option (list string);
  feat_career : option (list string)
}.

(** The sidebar inputs. *)
Record Profile : Type := {
  current_job : string;
  target_job : string;
  education : string;
  portfolio_strength : string;
  certifications : string;
  language_proficiency : string;
  remote_pref : string;
  years_exp : Z;
  projects_completed : Z;
  comm_rating : Z;
  skills_text : string
}.

Definition with_certifications (p : Profile) (c : string) : Profile :=
  {| current_job := current_job p;
     target_job := target_job p;
     education := education p;
     portfolio_strength := portfolio_strength p;
     certifications := c;
     language_proficiency := language_proficiency p;
     remote_pref := remote_pref p;
     years_exp := years_exp p;
     projects_completed := projects_completed p;
     comm_rating := comm_rating p;
     skills_text := skills_text p |}.

(* ===================================================================== *)
(** ** Input validation (lines 242-262) *)
(* ===================================================================== *)

Definition append_if (c : bool) (errors : list string) (msg : string)
  : list string :=
  if c then errors ++ [msg] else errors.

(** Returns the error list and the profile as the rest of the script sees
    it (the certifications variable may have been reassigned). *)
Definition validate (p : Profile) : list string * Profile :=
  let errors := [] in
  let errors := append_if (current_job p == "Select current job")
                          errors "Choose your current job." in
  let errors := append_if (target_job p == "Select target job")
                          errors "Choose your target job." in
  let errors := append_if (education p == "Select education")
                          errors "Select your education level." in
  let errors := append_if (portfolio_strength p == "Select...")
                          errors "Select portfolio strength." in
  let p := if certifications p == "Select..."
           then with_certifications p "None"
           else p in
  let errors := append_if (language_proficiency p == "Select...")
                          errors "Select language proficiency." in
  let errors := append_if (remote_pref p == "Select...")
                          errors "Select remote preference." in
  (errors, p).

(* ===================================================================== *)
(** ** Salary feature row (lines 298-354) *)
(* ===================================================================== *)

(** The three label-encoded features share one shape:
    [enc = encoders.get(name)]; [if enc:] tests the truth of the encoder,
    outside the inner [try]; with a truthy encoder try the transform and
    use 0 when it raises; without one use 0. *)
Definition encoded (encs : dict PyObject) (name value : string)
  : result pyval :=
  match get encs name with
  | Some enc =>
      b <- py_bool enc ;;
      if b
      then try_except (n <- py_transform_int enc value ;; Ok (PyInt n))
                      (fun _ => Ok (PyInt 0))
      else Ok (PyInt 0)
  | None => Ok (PyInt 0)
  end.

Definition portfolio_mapping : dict Z := [("Low", 0); ("Medium", 1); ("High", 2)].
Definition language_mapping : dict Z :=
  [("Beginner", 0); ("Intermediate", 1); ("Advanced", 2)].
Definition remote_mapping : dict Z := [("Onsite", 0); ("Hybrid", 1); ("Remote", 2)].

(** The body of the loop after the target-column test: the value bound to
    [val] when [X[feat] = val] is reached. *)
Definition salary_feature_value (a : Assets) (p : Profile) (feat : string)
  : result pyval :=
  let val := PyNone in
  if feat == "current_job_title" then
    encoded (encoders a) "current_job_title" (current_job p)
  else if feat == "target_job_title" then
    encoded (encoders a) "target_job_title" (target_job p)
  else if feat == "education_level" then
    encoded (encoders a) "education_level" (education p)
  else if feat == "portfolio_strength" then
    Ok (PyInt (get_default portfolio_mapping (portfolio_strength p) 1))
  else if feat == "certifications" then
    Ok (PyInt (if certifications p == "None" then 0 else 1))
  else if feat == "language_proficiency" then
    Ok (PyInt (get_default language_mapping (language_proficiency p) 1))
  else if feat == "remote_work_preference" then
    Ok (PyInt (get_default remote_mapping (remote_pref p) 0))
  else if contains ["years_of_experience"; "projects_completed";
                    "communication_skills_rating"] feat then
    if feat == "years_of_experience" then Ok (PyInt (years_exp p))
    else if feat == "projects_completed" then Ok (PyInt (projects_completed p))
    else Ok (PyInt (comm_rating p))
  else
    Ok (PyInt 0).

Definition is_target_column (feat : string) : bool :=
  contains ["estimated_salary_usd"] feat.

(** The [for feat in feat_salary] loop, threading the dict [X]. *)
Fixpoint salary_row_loop (a : Assets) (p : Profile) (feats : list string)
  (X : dict pyval) : result (dict pyval) :=
  match feats with
  | [] => Ok X
  | feat :: rest =>
      if is_target_column feat then salary_row_loop a p rest X
      else
        val <- salary_feature_value a p feat ;;
        salary_row_loop a p rest (setitem X feat val)
  end.

Definition build_salary_row (a : Assets) (p : Profile) (feats : list string)
  : result (dict pyval) :=
  salary_row_loop a p feats [].

(* ===================================================================== *)
(** ** Salary resolution (lines 292-391) *)
(* ===================================================================== *)

Inductive Salary : Type :=
| ModelDerivedSalary (inr_per_year : Z)
| HeuristicSalary (inr_per_year : Z).

Definition salary_amount (s : Salary) : Z :=
  match s with
  | ModelDerivedSalary n | HeuristicSalary n => n
  end.

(** [if scaler: try: <scale>  except Exception: pass] *)
Definition best_effort_scale (sc : option Obj) (df : frame) : result frame :=
  match sc with
  | Some s =>
      if truthy s then try_except (scale s df) (fun _ => Ok df) else Ok df
  | None => Ok df
  end.

(** [int(salary_usd * USD_TO_INR)] *)
Definition usd_to_inr (salary_usd : float) : result Z :=
  int_of_float (fmul salary_usd lit_82_0).

(** The body of the outer [try] of the salary block. *)
Definition model_salary (a : Assets) (p : Profile) : result Z :=
  feats <- schema_items (feat_salary a) ;;
  X <- build_salary_row a p feats ;;
  X_df <- best_effort_scale (scaler a) (DataFrame X) ;;
  match salary_model a with
  | Some m =>
      salary_usd <- predict_float m X_df ;;
      usd_to_inr salary_usd
  | None => Raise AttributeError
  end.

Definition resolve_salary (a : Assets) (p : Profile) : result Salary :=
  predicted_salary_inr <-
    (if is_true (salary_model a) && schema_true (feat_salary a)
     then try_except (n <- model_salary a p ;; Ok (Some n))
                     (fun _ => Ok None)
     else Ok None) ;;
  match predicted_salary_inr with
  | Some n => Ok (ModelDerivedSalary n)
  | None =>
      n <- heuristic_salary (target_job p) (years_exp p) ;;
      Ok (HeuristicSalary n)
  end.

(* ===================================================================== *)
(** ** Career suggestion preview (lines 401-441) *)
(* ===================================================================== *)

(** What the block writes under the user-chosen role. *)
Inductive Preview : Type :=
| ModelSuggestion (model_pred_role : string)
    (* "Model's suggestion (if available):" followed by the value *)
| NoSuggestion        (* "Model's suggestion: —" *)
| ModelNotAvailable.  (* "Model's suggestion: — (model not available)" *)

(** The value assigned to [Xin[feat]]. *)
Definition career_feature_value (a : Assets) (p : Profile) (feat : string)
  : result pyval :=
  if feat == "target_job_title" then Ok (PyInt 0)
  else if feat == "current_job_title" then
    match get (encoders a) "current_job_title" with
    | Some enc =>
        b <- py_bool enc ;;
        if b
        then n <- py_transform_int enc (current_job p) ;; Ok (PyInt n)
        else Ok (PyInt 0)
    | None => Ok (PyInt 0)
    end
  else if feat == "years_of_experience" then Ok (PyInt (years_exp p))
  else Ok (PyInt 0).

Fixpoint career_row_loop (a : Assets) (p : Profile) (feats : list string)
  (Xin : dict pyval) : result (dict pyval) :=
  match feats with
  | [] => Ok Xin
  | feat :: rest =>
      v <- career_feature_value a p feat ;;
      career_row_loop a p rest (setitem Xin feat v)
  end.

(** Lines 427-436: decode the label with the target-job encoder when there
    is one, else (or when decoding raises) show [str(pred_label)].  The
    truth test [if enc_target:] is outside the inner [try]. *)
Definition decode_label (encs : dict PyObject) (pred_label : Label)
  : result string :=
  match get encs "target_job_title" with
  | Some enc_target =>
      b <- py_bool enc_target ;;
      if b
      then try_except
             (n <- label_int pred_label ;;
              py_inverse_transform enc_target n)
             (fun _ => label_str pred_label)
      else label_str pred_label
  | None => label_str pred_label
  end.

(** The body of the [try] of the career block. *)
Definition model_preview (a : Assets) (p : Profile) : result Preview :=
  feats <- schema_items (feat_career a) ;;
  Xin <- career_row_loop a p feats [] ;;
  Xin_df <- best_effort_scale (scaler a) (DataFrame Xin) ;;
  match career_model a with
  | Some m =>
      pred_label <- predict_label m Xin_df ;;
      model_pred_role <- decode_label (encoders a) pred_label ;;
      Ok (ModelSuggestion model_pred_role)
  | None => Raise AttributeError
  end.

Definition career_preview (a : Assets) (p : Profile) : result Preview :=
  if is_true (career_model a) && schema_true (feat_career a)
  then try_except (model_preview a p) (fun _ => Ok NoSuggestion)
  else Ok ModelNotAvailable.

(** Line 402: the role shown as the recommendation. *)
Definition recommended_role (a : Assets) (p : Profile) : string :=
  target_job p.

(* ===================================================================== *)
(** ** Role content tables (lines 77-165, 464-535) *)
(* ===================================================================== *)

Record Course : Type := mkCourse {
  platform : string;
  course : string;
  duration : string
}.

Definition ROLE_SKILL_GAPS : dict (list string) :=
  [ ("Data Scientist",
     [ "Python (Pandas, NumPy)";
       "SQL & Data querying";
       "Machine Learning fundamentals";
       "Data visualization (Matplotlib/Seaborn)";
       "Model deployment (Flask/Streamlit)" ]);
    ("Frontend Engineer",
     [ "JavaScript (ES6+)";
       "React fundamentals";
       "HTML/CSS responsive design";
       "Web performance & accessibility";
       "Frontend testing (Jest)" ]);
    ("System Administrator",
     [ "Linux fundamentals";
       "Shell scripting";
       "Networking basics";
       "Cloud fundamentals (AWS/GCP)";
       "Monitoring & troubleshooting" ]);
    ("UI/UX Designer",
     [ "Design thinking & user research";
       "Figma/Sketch/Adobe XD";
       "Wireframing & prototyping";
       "Interaction design";
       "Storytelling & presentation" ]);
    ("Product Manager",
     [ "User research & product discovery";
       "Roadmapping & prioritization";
       "Stakeholder communication";
       "Metrics & experimentation";
       "Basic data analysis" ]);
    ("Junior Data Analyst",
     [ "Excel & spreadsheets";
       "SQL basics";
       "Data cleaning & EDA";
       "Basic visualization";
       "Presentation skills" ]);
    ("Frontend Developer",
     [ "HTML/CSS/JS";
       "React or Vue";
       "Component architecture";
       "State management";
       "Testing" ]);
    ("Technical Support Engineer",
     [ "Troubleshooting fundamentals";
       "Customer communication";
       "Product knowledge";
       "Basic networking";
       "Scripting for automation" ]);
    ("Junior UI/UX Designer",
     [ "Figma basics";
       "Wireframing";
       "Basic prototyping";
       "Usability heuristics";
       "Design critique" ]);
    ("Marketing Analyst",
     [ "Excel & Google Sheets";
       "Basic statistics";
       "Data visualization";
       "Marketing analytics tools";
       "Campaign measurement" ]) ].

Definition ROLE_COURSES_literal : dict (option (list Course)) :=
  [ ("Data Scientist",
     Some [ mkCourse "Coursera" "Python for Data Science" "4 weeks";
            mkCourse "Udemy" "Machine Learning Bootcamp" "6 weeks";
            mkCourse "YouTube" "Data Viz with Tableau" "3 weeks" ]);
    ("UI/UX Designer",
     Some [ mkCourse "Coursera" "UI/UX Specialization" "6 weeks";
            mkCourse "YouTube" "Design system tutorials" "2 weeks";
            mkCourse "Udemy" "Figma practical projects" "4 weeks" ]) ].

Definition ROLE_ROADMAP : dict (dict string) :=
  [ ("Data Scientist",
     [ ("Assess", "Review Python, SQL, portfolio, machine learning basics.");
       ("Learn", "Complete ML courses (Supervised, Unsupervised), Stats, EDA.");
       ("Build", "Create 4 ML projects — Regression, Classification, NLP, Deployment.");
       ("Profile", "Publish Kaggle notebooks, GitHub repos & LinkedIn posts.");
       ("Apply", "Apply to DS roles, practice ML system design interviews.") ]);
    ("Frontend Engineer",
     [ ("Assess", "Evaluate HTML, CSS, JS, React fundamentals.");
       ("Learn", "Master React, Hooks, State mgmt, API integration.");
       ("Build", "Build 3–5 responsive websites + React apps.");
       ("Profile", "Deploy on Netlify/Vercel, share UI case studies.");
       ("Apply", "Apply with live websites + GitHub portfolio.") ]);
    ("System Administrator",
     [ ("Assess", "Check Linux knowledge, shell scripting, networking basics.");
       ("Learn", "Study Linux, Bash, AWS, monitoring tools.");
       ("Build", "Build server configs, automate tasks, deploy scripts.");
       ("Profile", "Document troubleshooting cases, publish scripts on GitHub.");
       ("Apply", "Apply to SysAdmin/IT roles & take tech support interviews.") ]);
    ("UI/UX Designer",
     [ ("Assess", "Evaluate Figma, wireframing, user research skills.");
       ("Learn", "Practice UX case studies, interaction design, heuristics.");
       ("Build", "Create 3 UI/UX case studies + mobile/web prototypes.");
       ("Profile", "Publish Dribbble/Figma/Behance portfolio.");
       ("Apply", "Apply for UI/UX Intern/Junior roles with strong portfolio.") ]);
    ("Product Manager",
     [ ("Assess", "Check communication, research, analytics & docs skills.");
       ("Learn", "Study PRDs, user stories, Agile, prioritization frameworks.");
       ("Build", "Create 2 product case studies + a product roadmap.");
       ("Profile", "Publish PM case studies & feature breakdowns.");
       ("Apply", "Apply for APM roles, complete PM interview practice.") ]);
    ("Junior Data Analyst",
     [ ("Assess", "Assess Excel, SQL, dashboarding skills.");
       ("Learn", "Take courses in SQL, Power BI/Tableau, statistics.");
       ("Build", "Create 3 dashboards + 2 data cleaning projects.");
       ("Profile", "Upload dashboards to LinkedIn & GitHub.");
       ("Apply", "Apply for Data Analyst Intern/Junior roles.") ]);
    ("Frontend Developer",
     [ ("Assess", "Check React, HTML, JS, responsiveness knowledge.");
       ("Learn", "React advanced concepts + CSS frameworks (Tailwind).");
       ("Build", "Build 4–6 UI clones & dynamic web apps.");
       ("Profile", "Deploy projects, share UI/UX improvements.");
       ("Apply", "Apply with portfolio & GitHub repos.") ]);
    ("Technical Support Engineer",
     [ ("Assess", "Assess troubleshooting, communication & software basics.");
       ("Learn", "Study OS basics, networking, ticket systems.");
       ("Build", "Create documentation tutorials & automation scripts.");
       ("Profile", "Show real scenarios & solutions in resume.");
       ("Apply", "Apply to L1 support roles, practice customer interaction.") ]);
    ("Junior UI/UX Designer",
     [ ("Assess", "Check Figma basics, wireframing, UX research understanding.");
       ("Learn", "Learn design principles, layouts, typography.");
       ("Build", "Make 3 beginner-friendly app/web redesigns.");
       ("Profile", "Publish Behance/Figma case studies.");
       ("Apply", "Apply for entry UI/UX roles.") ]);
    ("Marketing Analyst",
     [ ("Assess", "Check analytics tools, Excel, reports knowledge.");
       ("Learn", "Study Google Analytics, basic statistics, dashboards.");
       ("Build", "Create 3–5 campaign analysis projects.");
       ("Profile", "Publish dashboard snapshots & insights.");
       ("Apply", "Apply for junior marketing/analytics roles.") ]) ].

(** Lines 164-165: the load-time fill.  A value of [ROLE_COURSES] is a
    course list or Python's [None] ([ROLE_COURSES.get("Data Scientist")]
    is [None] when that key is absent). *)
Definition fill_courses (rc : dict (option (list Course))) (r : string)
  : dict (option (list Course)) :=
  setdefault rc r (get_default rc r (get_default rc "Data Scientist" None)).

Definition ROLE_COURSES : dict (option (list Course)) :=
  fold_left fill_courses (keys ROLE_SKILL_GAPS) ROLE_COURSES_literal.

(** Lines 174-175: the roles offered by the two job selectors. *)
Definition role_options : list string := keys ROLE_SKILL_GAPS.
Definition current_job_options : list string :=
  ["Select current job"] ++ role_options.
Definition target_job_options : list string :=
  ["Select target job"] ++ role_options.

(** [TABLE.get(target_job, TABLE["Data Scientist"])]: the default is
    evaluated first. *)
Definition lookup_role {V} (table : dict V) (target_job : string) : result V :=
  dflt <- getitem table "Data Scientist" ;;
  Ok (get_default table target_job dflt).

Definition skill_gaps (target_job : string) : result (list string) :=
  lookup_role ROLE_SKILL_GAPS target_job.

Definition courses (target_job : string) : result (option (list Course)) :=
  lookup_role ROLE_COURSES target_job.

Definition roadmap (target_job : string) : result (dict string) :=
  lookup_role ROLE_ROADMAP target_job.

(** The five stage texts written into the five columns. *)
Record RoadmapView : Type := {
  stage_assess : string;
  stage_learn : string;
  stage_build : string;
  stage_profile : string;
  stage_apply : string
}.

Definition show_roadmap (rm : dict string) : result RoadmapView :=
  s1 <- getitem rm "Assess" ;;
  s2 <- getitem rm "Learn" ;;
  s3 <- getitem rm "Build" ;;
  s4 <- getitem rm "Profile" ;;
  s5 <- getitem rm "Apply" ;;
  Ok {| stage_assess := s1; stage_learn := s2; stage_build := s3;
        stage_profile := s4; stage_apply := s5 |}.

(* ===================================================================== *)
(** ** The script after the sidebar (lines 235-564) *)
(* ===================================================================== *)

Record Report : Type := {
  rep_salary : Salary;
  rep_role : string;
  rep_preview : Preview;
  rep_gaps : list string;
  rep_courses : option (list Course);
  rep_roadmap : RoadmapView
}.

Inductive Outcome : Type :=
| Idle                              (* [analyze] not clicked: [st.stop()] *)
| Rejected (errors : list string)   (* validation errors: [st.stop()] *)
| Analysed (r : Report).

(** Everything below the validation block.  The quick-status lines
    277-281 test the truth of the two models and the scaler once more,
    which cannot raise for truth-tested variables; they display marks and
    leave no result. *)
Definition analysis (a : Assets) (p : Profile) : result Report :=
  sal <- resolve_salary a p ;;
  pre <- career_preview a p ;;
  gaps <- skill_gaps (target_job p) ;;
  crs <- courses (target_job p) ;;
  rm <- roadmap (target_job p) ;;
  view <- show_roadmap rm ;;
  Ok {| rep_salary := sal; rep_role := recommended_role a p;
        rep_preview := pre; rep_gaps := gaps; rep_courses := crs;
        rep_roadmap := view |}.

Definition script (a : Assets) (analyze : bool) (p : Profile)
  : result Outcome :=
  if negb analyze then Ok Idle
  else
    let '(errors, p') := validate p in
    match errors with
    | _ :: _ => Ok (Rejected errors)
    | [] => r <- analysis a p' ;; Ok (Analysed r)
    end.

(* ===================================================================== *)
(** ** Artifact loading (lines 24-71) *)
(* ===================================================================== *)

(** What reading and deserialising each path does. *)
Record FileSystem : Type := {
  pickle_load : string -> result (option PyObject);
    (* [open] + [pickle.load] *)
  joblib_load : string -> result (option PyObject);
    (* [joblib.load] *)
  json_load : string -> result (option (list string))
    (* [open] + [json.load] *)
}.

Definition loader : Type := string -> result (option PyObject).

(** Line 24. *)
Definition safe_load_pickle_first (fs : FileSystem) : loader :=
  fun path => try_except (pickle_load fs path) (fun _ => Ok None).

(** Line 33: the definition bound to the name from then on. *)
Definition safe_load_pickle (fs : FileSystem) : loader :=
  fun path => try_except (joblib_load fs path) (fun _ => Ok None).

(** Line 41. *)
Definition load_json (fs : FileSystem) (path : string)
  : result (option (list string)) :=
  try_except (json_load fs path) (fun _ => Ok None).

(** The loader functions bound in the module namespace when line 52 is
    reached: each [def] binds its name, a second [def] rebinds it. *)
Definition module_loaders (fs : FileSystem) : dict loader :=
  let g := [] in
  let g := setitem g "safe_load_pickle" (safe_load_pickle_first fs) in
  let g := setitem g "safe_load_pickle" (safe_load_pickle fs) in
  g.

(** A call [name(path)] of a loader through the namespace. *)
Definition call (g : dict loader) (name path : string)
  : result (option PyObject) :=
  match get g name with
  | Some f => f path
  | None => Raise (NameError name)
  end.

Fixpoint starts_with (pre s : string) : bool :=
  match pre, s with
  | EmptyString, _ => true
  | String a pre', String b s' => Ascii.eqb a b && starts_with pre' s'
  | String _ _, EmptyString => false
  end.

(** [s.replace(old, new)] for a non-empty [old]; [skip] counts the
    characters of a match still to be dropped. *)
Fixpoint replace_from (old new : string) (skip : nat) (s : string) : string :=
  match s with
  | EmptyString => EmptyString
  | String c s' =>
      match skip with
      | S k => replace_from old new k s'
      | O =>
          if starts_with old s
          then new ++ replace_from old new (Nat.pred (String.length old)) s'
          else String c (replace_from old new 0 s')
      end
  end.

Definition replace (s old new : string) : string := replace_from old new 0 s.

Definition encoder_files : list string :=
  [ "current_job_title_encoder.pkl";
    "target_job_title_encoder.pkl";
    "education_level_encoder.pkl";
    "portfolio_strength_encoder.pkl";
    "certifications_encoder.pkl";
    "language_proficiency_encoder.pkl";
    "remote_work_preference_encoder.pkl" ].

(** Lines 57-68. *)
Fixpoint load_encoders (g : dict loader) (names : list string)
  (encs : dict PyObject) : result (dict PyObject) :=
  match names with
  | [] => Ok encs
  | name :: rest =>
      enc <- call g "safe_load_joblib" name ;;
      match enc with
      | Some e =>
          load_encoders g rest (setitem encs (replace name "_encoder.pkl" "") e)
      | None => load_encoders g rest encs
      end
  end.

(** The module-level variables as the loading block leaves them. *)
Record Loaded : Type := {
  loaded_salary_model : option PyObject;
  loaded_career_model : option PyObject;
  loaded_scaler : option PyObject;
  loaded_encoders : dict PyObject;
  loaded_feat_salary : option (list string);
  loaded_feat_career : option (list string)
}.

(** Lines 52-71.  The [or] of line 55 tests the truth of its left
    operand. *)
Definition load_assets (fs : FileSystem) : result Loaded :=
  let g := module_loaders fs in
  sm <- call g "safe_load_pickle" "salary_model.pkl" ;;
  cm <- call g "safe_load_pickle" "career_recommender.pkl" ;;
  s1 <- call g "safe_load_pickle" "scaler.pkl" ;;
  b <- py_truth s1 ;;
  sc <- (if b then Ok s1 else call g "safe_load_joblib" "scaler.pkl") ;;
  encs <- load_encoders g encoder_files [] ;;
  fsal <- load_json fs "feature_columns_salary.json" ;;
  fcar <- load_json fs "feature_columns_career.json" ;;
  Ok {| loaded_salary_model := sm; loaded_career_model := cm;
        loaded_scaler := sc; loaded_encoders := encs;
        loaded_feat_salary := fsal; loaded_feat_career := fcar |}.

(** ["FOUND" if x else "NOT FOUND"] for a loaded object: the truth test,
    and the variable as the rest of the run has it. *)
Definition truth_test (x : option PyObject) : result (option Obj) :=
  match x with
  | Some o => b <- py_bool o ;; Ok (Some (tested o b))
  | None => Ok None
  end.

(** Lines 211-218, the status panel, run on every pass whether or not the
    button is pressed: it tests the truth of the salary model, the career
    model and the scaler (the two schema lists and the list of encoder
    names have a truth value that cannot raise). *)
Definition status_panel (l : Loaded) : result Assets :=
  sm <- truth_test (loaded_salary_model l) ;;
  cm <- truth_test (loaded_career_model l) ;;
  sc <- truth_test (loaded_scaler l) ;;
  Ok {| salary_model := sm; career_model := cm; scaler := sc;
        encoders := loaded_encoders l;
        feat_salary := loaded_feat_salary l;
        feat_career := loaded_feat_career l |}.

(** Lines 211-564: a run once the loading block is done. *)
Definition run_loaded (l : Loaded) (analyze : bool) (p : Profile)
  : result Outcome :=
  a <- status_panel l ;;
  script a analyze p.

(** The whole program: load, then run the script. *)
Definition app (fs : FileSystem) (analyze : bool) (p : Profile)
  : result Outcome :=
  l <- load_assets fs ;;
  run_loaded l analyze p.

(* ===================================================================== *)
(** ** Reference definitions used in the statements *)
(* ===================================================================== *)

(** [float(n)] where it cannot overflow. *)
Definition Z2F (n : Z) : float := binary_normalize prec emax n 0 false.

(** Truncation of a finite float. *)
Definition trunc (x : float) : Z :=
  match int_of_float x with
  | Ok n => n
  | Raise _ => 0
  end.

(** The base of a role: its table entry, 450000 for a role not listed. *)
Definition base_salary (role : string) : Z :=
  match get BASE_BY_ROLE_INR role with
  | Some b => b
  | None => 450000
  end.

(** The heuristic as one binary64 expression:
    [int(base * (1 + min(y, 10) * 0.06))]. *)
Definition heuristic_formula (base y : Z) : Z :=
  trunc (fmul (Z2F base) (fadd (Z2F 1) (fmul (Z2F (Z.min y 10)) lit_0_06))).

(** The same expression over the rationals: [floor(base * (100 + 6 *
    min(y, 10)) / 100)]. *)
Definition heuristic_exact (base y : Z) : Z :=
  (base * (100 + 6 * Z.min y 10)) / 100.

Definition base_values : list Z := map snd BASE_BY_ROLE_INR ++ [450000].
Definition capped_years : list Z := [0; 1; 2; 3; 4; 5; 6; 7; 8; 9; 10].

Definition ok_is (c : result Z) (n : Z) : bool :=
  match c with
  | Ok m => m =? n
  | Raise _ => false
  end.

(** The three ordinal mappings as the text gives them. *)
Definition ordinal (lo mid hi : string) (dflt : Z) (s : string) : Z :=
  if s == lo then 0
  else if s == mid then 1
  else if s == hi then 2
  else dflt.

(** The code of a label-encoded field: the encoder's code, 0 when there is
    no usable encoder or when it raises. *)
Definition encoder_code (encs : dict PyObject) (name value : string) : Z :=
  match get encs name with
  | Some enc =>
      match py_bool enc with
      | Ok true =>
          match py_transform_int enc value with
          | Ok n => n
          | Raise _ => 0
          end
      | _ => 0
      end
  | None => 0
  end.

(** [bool(o)] returns. *)
Definition truth_test_returns (o : PyObject) : Prop :=
  exists b, py_bool o = Ok b.

(** The encoder names the script reads from the registry. *)
Definition used_encoders : list string :=
  ["current_job_title"; "target_job_title"; "education_level"].

(** The truth test returns for every encoder the schema [feats] makes the
    salary row consult. *)
Definition consulted_testable (a : Assets) (feats : list string) : Prop :=
  forall name enc,
    In name used_encoders -> In name feats ->
    get (encoders a) name = Some enc -> truth_test_returns enc.

(** The value each feature name is bound to. *)
Definition feature_spec (a : Assets) (p : Profile) (feat : string) : Z :=
  if feat == "current_job_title" then
    encoder_code (encoders a) "current_job_title" (current_job p)
  else if feat == "target_job_title" then
    encoder_code (encoders a) "target_job_title" (target_job p)
  else if feat == "education_level" then
    encoder_code (encoders a) "education_level" (education p)
  else if feat == "portfolio_strength" then
    ordinal "Low" "Medium" "High" 1 (portfolio_strength p)
  else if feat == "certifications" then
    (if certifications p == "None" then 0 else 1)
  else if feat == "language_proficiency" then
    ordinal "Beginner" "Intermediate" "Advanced" 1 (language_proficiency p)
  else if feat == "remote_work_preference" then
    ordinal "Onsite" "Hybrid" "Remote" 0 (remote_pref p)
  else if feat == "years_of_experience" then years_exp p
  else if feat == "projects_completed" then projects_completed p
  else if feat == "communication_skills_rating" then comm_rating p
  else 0.

(** The fields validation reports. *)
Inductive Required : Type :=
| ReqCurrentJob
| ReqTargetJob
| ReqEducation
| ReqPortfolio
| ReqLanguage
| ReqRemote.

Definition field_value (f : Required) (p : Profile) : string :=
  match f with
  | ReqCurrentJob => current_job p
  | ReqTargetJob => target_job p
  | ReqEducation => education p
  | ReqPortfolio => portfolio_strength p
  | ReqLanguage => language_proficiency p
  | ReqRemote => remote_pref p
  end.

Definition placeholder (f : Required) : string :=
  match f with
  | ReqCurrentJob => "Select current job"
  | ReqTargetJob => "Select target job"
  | ReqEducation => "Select education"
  | ReqPortfolio | ReqLanguage | ReqRemote => "Select..."
  end.

Definition field_message (f : Required) : string :=
  match f with
  | ReqCurrentJob => "Choose your current job."
  | ReqTargetJob => "Choose your target job."
  | ReqEducation => "Select your education level."
  | ReqPortfolio => "Select portfolio strength."
  | ReqLanguage => "Select language proficiency."
  | ReqRemote => "Select remote preference."
  end.

Definition all_chosen (p : Profile) : Prop :=
  forall f, field_value f p <> placeholder f.

Definition without_scaler (a : Assets) : Assets :=
  {| salary_model := salary_model a; career_model := career_model a;
     scaler := None; encoders := encoders a;
     feat_salary := feat_salary a; feat_career := feat_career a |}.

Definition without_salary_model (a : Assets) : Assets :=
  {| salary_model := None; career_model := career_model a;
     scaler := scaler a; encoders := encoders a;
     feat_salary := feat_salary a; feat_career := feat_career a |}.

(** ** Sample inputs *)

Definition absent_method {A B : Type} (_ : A) : result B := Raise AttributeError.

(** A scaler fitted on other columns: [transform] raises. *)
Definition failing_scaler : Obj :=
  {| truthy := true;
     transform_int := absent_method;
     inverse_transform := absent_method;
     scale := fun _ => Raise ValueError;
     predict_float := absent_method;
     predict_label := absent_method |}.

(** A regressor that answers 1000.0 for every row. *)
Definition flat_regressor : Obj :=
  {| truthy := true;
     transform_int := absent_method;
     inverse_transform := absent_method;
     scale := absent_method;
     predict_float := fun _ => Ok (Z2F 1000);
     predict_label := absent_method |}.

Definition label_three : Label :=
  {| label_int := Ok 3; label_str := Ok "3" |}.

(** A classifier that answers the label 3 for every row. *)
Definition flat_classifier : Obj :=
  {| truthy := true;
     transform_int := absent_method;
     inverse_transform := absent_method;
     scale := absent_method;
     predict_float := absent_method;
     predict_label := fun _ => Ok label_three |}.

(** An encoder file holding an object without methods. *)
Definition plain_encoder : PyObject :=
  {| py_bool := Ok true;
     py_transform_int := absent_method;
     py_inverse_transform := absent_method;
     py_scale := absent_method;
     py_predict_float := absent_method;
     py_predict_label := absent_method |}.

(** A file holding a numpy array of two elements: [bool(o)] raises. *)
Definition array_object : PyObject :=
  {| py_bool := Raise ValueError;
     py_transform_int := absent_method;
     py_inverse_transform := absent_method;
     py_scale := absent_method;
     py_predict_float := absent_method;
     py_predict_label := absent_method |}.

Definition no_assets : Assets :=
  {| salary_model := None; career_model := None; scaler := None;
     encoders := []; feat_salary := None; feat_career := None |}.

Definition sample_schema : list string :=
  [ "years_of_experience"; "certifications"; "portfolio_strength";
    "estimated_salary_usd"; "skill_count"; "years_of_experience" ].

(** Both models and schemas present, a scaler whose [transform] raises,
    and a target-job encoder that cannot decode. *)
Definition assets_failing_scaler : Assets :=
  {| salary_model := Some flat_regressor; career_model := Some flat_classifier;
     scaler := Some failing_scaler;
     encoders := [("target_job_title", plain_encoder)];
     feat_salary := Some sample_schema; feat_career := Some sample_schema |}.

Definition nonempty_stages (v : RoadmapView) : Prop :=
  stage_assess v <> "" /\ stage_learn v <> "" /\ stage_build v <> "" /\
  stage_profile v <> "" /\ stage_apply v <> "".

(** Every field chosen, certifications left at its first option. *)
Definition sample_profile : Profile :=
  {| current_job := "Junior Data Analyst";
     target_job := "Product Manager";
     education := "MBA";
     portfolio_strength := "High";
     certifications := "Select...";
     language_proficiency := "Advanced";
     remote_pref := "Hybrid";
     years_exp := 10;
     projects_completed := 4;
     comm_rating := 7;
     skills_text := "Python, SQL" |}.

(** The form as it first renders, with only the target job chosen. *)
Definition untouched_profile : Profile :=
  {| current_job := "Select current job";
     target_job := "Product Manager";
     education := "Select education";
     portfolio_strength := "Select...";
     certifications := "Select...";
     language_proficiency := "Select...";
     remote_pref := "Select...";
     years_exp := 0;
     projects_completed := 0;
     comm_rating := 5;
     skills_text := "" |}.

(** A working directory without any artifact file. *)
Definition no_files : FileSystem :=
  {| pickle_load := fun _ => Raise OSError;
     joblib_load := fun _ => Raise OSError;
     json_load := fun _ => Raise OSError |}.

(* ===================================================================== *)
(** ** Sidebar inputs (lines 174-206) *)
(* ===================================================================== *)

Definition education_options : list string :=
  ["Select education"] ++
  [ "Associate Degree in IT";
    "Bachelor's in IT";
    "Bachelor's in Computer Science";
    "Bachelor's in Design";
    "Bachelor's in Marketing";
    "MBA";
    "Bachelor's in Statistics" ].

Definition portfolio_options : list string :=
  ["Select..."; "Low"; "Medium"; "High"].
Definition certification_options : list string :=
  ["Select..."; "None"; "AWS Certified"; "Certified UX Designer";
   "DataCamp Track"].
Definition language_options : list string :=
  ["Select..."; "Beginner"; "Intermediate"; "Advanced"].
Definition remote_options : list string :=
  ["Select..."; "Onsite"; "Hybrid"; "Remote"].

(** A profile the widgets can hand to the script: each select box yields
    one of its options, each number input a value within its bounds. *)
Definition from_sidebar (p : Profile) : Prop :=
  In (current_job p) current_job_options /\
  In (target_job p) target_job_options /\
  In (education p) education_options /\
  In (portfolio_strength p) portfolio_options /\
  In (certifications p) certification_options /\
  In (language_proficiency p) language_options /\
  In (remote_pref p) remote_options /\
  0 <= years_exp p <= 40 /\
  0 <= projects_completed p <= 50 /\
  1 <= comm_rating p <= 10.

(* ===================================================================== *)
(** ** Profile summary: the skill count (line 272) *)
(* ===================================================================== *)

(** [c.isspace()] for an ASCII character: TAB..CR, FS..US and space. *)
Definition is_space (c : ascii) : bool :=
  let n := nat_of_ascii c in
  ((9 <=? n)%nat && (n <=? 13)%nat) || ((28 <=? n)%nat && (n <=? 32)%nat).

Definition is_comma (c : ascii) : bool := Ascii.eqb c ",".

(** [s.split(',')] *)
Fixpoint split_comma (s : string) : list string :=
  match s with
  | EmptyString => [EmptyString]
  | String c rest =>
      if is_comma c then EmptyString :: split_comma rest
      else match split_comma rest with
           | cur :: segs => String c cur :: segs
           | [] => [String c EmptyString]
           end
  end.

Fixpoint lstrip (s : string) : string :=
  match s with
  | EmptyString => EmptyString
  | String c rest => if is_space c then lstrip rest else s
  end.

Fixpoint rstrip (s : string) : string :=
  match s with
  | EmptyString => EmptyString
  | String c rest =>
      match rstrip rest with
      | EmptyString => if is_space c then EmptyString else String c EmptyString
      | kept => String c kept
      end
  end.

(** [s.strip()] *)
Definition strip (s : string) : string := rstrip (lstrip s).

(** Truth value of a string. *)
Definition str_true (s : string) : bool :=
  match s with
  | EmptyString => false
  | String _ _ => true
  end.

(** [len([s for s in skills_text.split(',') if s.strip()])] *)
Definition skill_count (skills_text : string) : Z :=
  Z.of_nat (List.length
              (filter (fun s => str_true (strip s)) (split_comma skills_text))).

(** A string made of whitespace only. *)
Definition blank (s : string) : bool :=
  forallb is_space (list_ascii_of_string s).

(** The number of commas of a string. *)
Definition comma_count (s : string) : Z :=
  Z.of_nat (List.length (filter is_comma (list_ascii_of_string s))).

(** Text whose characters are all ASCII. *)
Definition ascii_text (s : string) : Prop :=
  Forall (fun c => (nat_of_ascii c < 128)%nat) (list_ascii_of_string s).

(* ===================================================================== *)
(** ** Salary card (line 394) *)
(* ===================================================================== *)

(** Walk the digits from the least significant one; [k] is the number of
    digits written since the last comma. *)
Fixpoint group_from (k : nat) (rev_digits : list ascii) : list ascii :=
  match rev_digits with
  | [] => []
  | d :: rest =>
      match k with
      | 3%nat => ","%char :: d :: group_from 1 rest
      | _ => d :: group_from (S k) rest
      end
  end.

(** The digits in groups of three, counted from the right. *)
Definition group_thousands (digits : string) : string :=
  string_of_list_ascii
    (rev (group_from 0 (rev (list_ascii_of_string digits)))).

(** [format(n, ",")]: sign, then the grouped decimal digits. *)
Definition format_commas (n : Z) : string :=
  match Z.to_int n with
  | Decimal.Pos d => group_thousands (NilZero.string_of_uint d)
  | Decimal.Neg d => String "-" (group_thousands (NilZero.string_of_uint d))
  end.

(** The text of the salary card. *)
Definition salary_card (predicted_salary_inr : Z) : string :=
  "₹ " ++ format_commas predicted_salary_inr ++ " INR per year".

Definition remove_commas (s : string) : string :=
  string_of_list_ascii
    (filter (fun c => negb (is_comma c)) (list_ascii_of_string s)).

(** Reading a decimal numeral back. *)
Definition parse_int (s : string) : option Z :=
  option_map Z.of_int (NilZero.int_of_string s).

(* ===================================================================== *)
(** ** Further reference definitions *)
(* ===================================================================== *)

Definition required_fields : list Required :=
  [ReqCurrentJob; ReqTargetJob; ReqEducation; ReqPortfolio; ReqLanguage;
   ReqRemote].

Definition at_placeholder (p : Profile) (f : Required) : bool :=
  field_value f p == placeholder f.

(** The certifications value the script works with after validation. *)
Definition accepted_certifications (c : string) : string :=
  if c == "Select..." then "None" else c.

(** The names of [xs] in order, each at its first occurrence, without
    those already in [seen]. *)
Fixpoint first_occurrences_from (seen xs : list string) : list string :=
  match xs with
  | [] => []
  | x :: rest =>
      if contains seen x then first_occurrences_from seen rest
      else x :: first_occurrences_from (x :: seen) rest
  end.

Definition first_occurrences (xs : list string) : list string :=
  first_occurrences_from [] xs.

Definition salary_columns (feats : list string) : list string :=
  first_occurrences (filter (fun f => negb (is_target_column f)) feats).

Definition finite_float (x : float) : bool :=
  match x with
  | S754_zero _ | S754_finite _ _ _ => true
  | S754_infinity _ | S754_nan => false
  end.

(** The value each name is bound to in the career row. *)
Definition career_spec (a : Assets) (p : Profile) (feat : string) : Z :=
  if feat == "target_job_title" then 0
  else if feat == "current_job_title" then
    encoder_code (encoders a) "current_job_title" (current_job p)
  else if feat == "years_of_experience" then years_exp p
  else 0.

(** The truth test of the current-job encoder raises, or the encoder is
    truthy and raises on the profile's job. *)
Definition current_job_encoder_fails (a : Assets) (p : Profile) : bool :=
  match get (encoders a) "current_job_title" with
  | Some enc =>
      match py_bool enc with
      | Raise _ => true
      | Ok b =>
          b &&
          match py_transform_int enc (current_job p) with
          | Ok _ => false
          | Raise _ => true
          end
      end
  | None => false
  end.

(** An encoder that knows no job title. *)
Definition strict_encoder : PyObject :=
  {| py_bool := Ok true;
     py_transform_int := fun _ => Raise ValueError;
     py_inverse_transform := fun _ => Raise ValueError;
     py_scale := absent_method;
     py_predict_float := absent_method;
     py_predict_label := absent_method |}.

(** A scaler that doubles every int cell. *)
Definition doubling_scaler : Obj :=
  {| truthy := true;
     transform_int := absent_method;
     inverse_transform := absent_method;
     scale := fun df =>
       Ok (map (fun kv => match snd kv with
                          | PyInt n => (fst kv, PyInt (2 * n))
                          | v => (fst kv, v)
                          end) df);
     predict_float := absent_method;
     predict_label := absent_method |}.

(** A regressor that answers the years-of-experience cell times 100. *)
Definition years_regressor : Obj :=
  {| truthy := true;
     transform_int := absent_method;
     inverse_transform := absent_method;
     scale := absent_method;
     predict_float := fun df =>
       match get df "years_of_experience" with
       | Some (PyInt n) => Ok (Z2F (100 * n))
       | _ => Raise (KeyError "years_of_experience")
       end;
     predict_label := absent_method |}.

Definition assets_working_scaler : Assets :=
  {| salary_model := Some years_regressor; career_model := None;
     scaler := Some doubling_scaler; encoders := [];
     feat_salary := Some sample_schema; feat_career := None |}.

(** A regressor that answers NaN for three years of experience and
    1000.0 otherwise. *)
Definition nan_at_three_regressor : Obj :=
  {| truthy := true;
     transform_int := absent_method;
     inverse_transform := absent_method;
     scale := absent_method;
     predict_float := fun df =>
       match get df "years_of_experience" with
       | Some (PyInt 3) => Ok S754_nan
       | _ => Ok (Z2F 1000)
       end;
     predict_label := absent_method |}.

Definition assets_nan_at_three : Assets :=
  {| salary_model := Some nan_at_three_regressor; career_model := None;
     scaler := None; encoders := [];
     feat_salary := Some ["years_of_experience"]; feat_career := None |}.

Definition assets_strict_encoder : Assets :=
  {| salary_model := None; career_model := Some flat_classifier;
     scaler := None; encoders := [("current_job_title", strict_encoder)];
     feat_salary := None;
     feat_career := Some ["current_job_title"; "years_of_experience"] |}.

(** Two sets of module variables that differ at most in encoders the
    script does not read. *)
Definition agree_on_used (a b : Assets) : Prop :=
  salary_model a = salary_model b /\
  career_model a = career_model b /\
  scaler a = scaler b /\
  feat_salary a = feat_salary b /\
  feat_career a = feat_career b /\
  (forall name, In name used_encoders ->
                get (encoders a) name = get (encoders b) name).

Fixpoint index_of (x : string) (xs : list string) : option Z :=
  match xs with
  | [] => None
  | y :: rest =>
      if x == y then Some 0
      else option_map Z.succ (index_of x rest)
  end.

(** A label encoder over the selector's roles, numbered in table order. *)
Definition role_encoder : PyObject :=
  {| py_bool := Ok true;
     py_transform_int := fun s =>
       match index_of s role_options with
       | Some n => Ok n
       | None => Raise ValueError
       end;
     py_inverse_transform := fun n =>
       if n <? 0 then Raise ValueError
       else match nth_error role_options (Z.to_nat n) with
            | Some r => Ok r
            | None => Raise ValueError
            end;
     py_scale := absent_method;
     py_predict_float := absent_method;
     py_predict_label := absent_method |}.

Definition assets_role_encoder : Assets :=
  {| salary_model := None; career_model := Some flat_classifier;
     scaler := None;
     encoders := [("current_job_title", role_encoder);
                  ("target_job_title", role_encoder)];
     feat_salary := None;
     feat_career := Some ["current_job_title"; "years_of_experience"] |}.

(** The same, with an encoder file the script never reads. *)
Definition assets_extra_encoder : Assets :=
  {| salary_model := None; career_model := Some flat_classifier;
     scaler := None;
     encoders := [("current_job_title", role_encoder);
                  ("target_job_title", role_encoder);
                  ("portfolio_strength", strict_encoder)];
     feat_salary := None;
     feat_career := Some ["current_job_title"; "years_of_experience"] |}.

(** A salary model with its schema, and a current-job encoder file that
    holds an array. *)
Definition assets_array_encoder : Assets :=
  {| salary_model := Some flat_regressor; career_model := None;
     scaler := None; encoders := [("current_job_title", array_object)];
     feat_salary := Some ["current_job_title"; "years_of_experience"];
     feat_career := None |}.

(** A regressor that raises on a row without a [skill_count] column. *)
Definition column_regressor : Obj :=
  {| truthy := true;
     transform_int := absent_method;
     inverse_transform := absent_method;
     scale := absent_method;
     predict_float := fun df =>
       match get df "skill_count" with
       | Some _ => Ok (Z2F 1000)
       | None => Raise (KeyError "skill_count")
       end;
     predict_label := absent_method |}.

(** A classifier that raises on a row without a [skill_count] column. *)
Definition column_classifier : Obj :=
  {| truthy := true;
     transform_int := absent_method;
     inverse_transform := absent_method;
     scale := absent_method;
     predict_float := absent_method;
     predict_label := fun df =>
       match get df "skill_count" with
       | Some _ => Ok label_three
       | None => Raise (KeyError "skill_count")
       end |}.

(** Both models need a column the schemas do not name. *)
Definition assets_missing_column : Assets :=
  {| salary_model := Some column_regressor;
     career_model := Some column_classifier;
     scaler := None; encoders := [];
     feat_salary := Some ["years_of_experience"];
     feat_career := Some ["years_of_experience"] |}.

(** Nothing could be loaded. *)
Definition nothing_loaded : Loaded :=
  {| loaded_salary_model := None; loaded_career_model := None;
     loaded_scaler := None; loaded_encoders := [];
     loaded_feat_salary := None; loaded_feat_career := None |}.

(** The salary model file holds an array. *)
Definition array_model_loaded : Loaded :=
  {| loaded_salary_model := Some array_object; loaded_career_model := None;
     loaded_scaler := None; loaded_encoders := [];
     loaded_feat_salary := None; loaded_feat_career := None |}.

(** A working directory whose only artifact is a [scaler.pkl] that holds
    an array. *)
Definition array_scaler_files : FileSystem :=
  {| pickle_load := fun _ => Raise OSError;
     joblib_load := fun path =>
       if path == "scaler.pkl" then Ok (Some array_object)
       else Raise OSError;
     json_load := fun _ => Raise OSError |}.

(** The three loaded objects the status panel tests have a truth value. *)
Definition panel_testable (l : Loaded) : Prop :=
  (forall o, loaded_salary_model l = Some o -> truth_test_returns o) /\
  (forall o, loaded_career_model l = Some o -> truth_test_returns o) /\
  (forall o, loaded_scaler l = Some o -> truth_test_returns o).

(** Every field chosen from the widgets. *)
Definition chosen_profile : Profile :=
  {| current_job := "Junior Data Analyst";
     target_job := "Data Scientist";
     education := "Bachelor's in Statistics";
     portfolio_strength := "Medium";
     certifications := "DataCamp Track";
     language_proficiency := "Intermediate";
     remote_pref := "Remote";
     years_exp := 3;
     projects_completed := 6;
     comm_rating := 8;
     skills_text := "Python, SQL, , Tableau" |}.

(* ===================================================================== *)
(** ** Proofs *)
(* ===================================================================== *)

(** *** The run-time model *)

Lemma try_except_returns {A} (c : result A) (a : A) :
  exists r, try_except c (fun _ => Ok a) = Ok r.
Proof. destruct c; simpl; eauto. Qed.

Lemma bind_Ok_inv {A B} (c : result A) (k : A -> result B) (b : B) :
  bind c k = Ok b -> exists a, c = Ok a /\ k a = Ok b.
Proof. destruct c as [a|e]; simpl; [eauto | discriminate]. Qed.

Lemma try_except_raise {A} (c : result A) (a : A) :
  raises c -> try_except c (fun _ => Ok a) = Ok a.
Proof. intros [e ->]. reflexivity. Qed.

(** The literal 0.06 is the double nearest to 6/100: the error of
    [m * 2^-57] is below half a unit in the last place. *)
Lemma lit_0_06_nearest :
  lit_0_06 = S754_finite false 8646911284551352 (-57) /\
  2 * Z.abs (100 * 8646911284551352 - 6 * 2 ^ 57) <= 100.
Proof. split; [reflexivity | vm_compute; discriminate]. Qed.

Lemma lit_82_0_exact :
  lit_82_0 = Z2F 82.
Proof. vm_compute. reflexivity. Qed.

Example replace_encoder_suffix :
  map (fun name => replace name "_encoder.pkl" "") encoder_files =
  [ "current_job_title"; "target_job_title"; "education_level";
    "portfolio_strength"; "certifications"; "language_proficiency";
    "remote_work_preference" ].
Proof. reflexivity. Qed.

(** *** Heuristic salary *)

Lemma min_capped (y : Z) : 0 <= y -> In (Z.min y 10) capped_years.
Proof.
  intros Hy. unfold capped_years.
  assert (H : 0 <= Z.min y 10 <= 10) by lia.
  destruct (Z.min y 10) as [|k|k]; [now left | | lia].
  do 10 (destruct k as [k|k|]; try lia; simpl; auto 12).
Qed.

Lemma base_in_values (role : string) :
  In (get_default BASE_BY_ROLE_INR role 450000) base_values.
Proof.
  unfold get_default, BASE_BY_ROLE_INR, base_values. simpl.
  repeat match goal with
         | |- context [if ?b then _ else _] => destruct b; [auto 12 |]
         end.
  auto 12.
Qed.

(** The checks below run the binary64 operations on every base of the
    table and every capped number of years. *)
Lemma adjust_table_check :
  forallb (fun b =>
    forallb (fun k => ok_is (experience_adjust b k) (heuristic_formula b k))
            capped_years) base_values = true.
Proof. vm_compute. reflexivity. Qed.

Lemma monotone_table_check :
  forallb (fun b =>
    forallb (fun k1 =>
      forallb (fun k2 =>
        implb (k1 <=? k2) (heuristic_formula b k1 <=? heuristic_formula b k2))
        capped_years) capped_years) base_values = true.
Proof. vm_compute. reflexivity. Qed.

Lemma ok_is_true (c : result Z) (n : Z) : ok_is c n = true -> c = Ok n.
Proof.
  destruct c as [m|e]; simpl; [|discriminate].
  intros H. apply Z.eqb_eq in H. now subst.
Qed.

Lemma formula_capped (b y : Z) :
  heuristic_formula b y = heuristic_formula b (Z.min y 10).
Proof.
  unfold heuristic_formula. now rewrite Z.min_l with (n := Z.min y 10) by lia.
Qed.

Lemma adjust_capped (b y : Z) :
  experience_adjust b y = experience_adjust b (Z.min y 10).
Proof.
  unfold experience_adjust. now rewrite Z.min_l with (n := Z.min y 10) by lia.
Qed.

Lemma experience_adjust_formula (b y : Z) :
  In b base_values -> 0 <= y ->
  experience_adjust b y = Ok (heuristic_formula b y).
Proof.
  intros Hb Hy.
  rewrite adjust_capped, formula_capped.
  pose proof adjust_table_check as T.
  rewrite forallb_forall in T. specialize (T b Hb).
  rewrite forallb_forall in T. specialize (T _ (min_capped y Hy)).
  now apply ok_is_true.
Qed.

Lemma formula_monotone (b y1 y2 : Z) :
  In b base_values -> 0 <= y1 <= y2 ->
  heuristic_formula b y1 <= heuristic_formula b y2.
Proof.
  intros Hb [H1 H2].
  rewrite (formula_capped b y1), (formula_capped b y2).
  pose proof monotone_table_check as T.
  rewrite forallb_forall in T. specialize (T b Hb).
  rewrite forallb_forall in T. specialize (T _ (min_capped y1 H1)).
  rewrite forallb_forall in T.
  specialize (T _ (min_capped y2 (Z.le_trans _ _ _ H1 H2))).
  assert (L : (Z.min y1 10 <=? Z.min y2 10) = true) by (apply Z.leb_le; lia).
  rewrite L in T. simpl in T. now apply Z.leb_le.
Qed.

Lemma base_salary_default (role : string) :
  get_default BASE_BY_ROLE_INR role 450000 = base_salary role.
Proof. reflexivity. Qed.

Lemma heuristic_salary_formula (role : string) (y : Z) :
  0 <= y ->
  heuristic_salary role y = Ok (heuristic_formula (base_salary role) y).
Proof.
  intros Hy. unfold heuristic_salary.
  rewrite experience_adjust_formula; auto using base_in_values.
Qed.

(** Over the rationals the product is a whole number at six years, and
    the binary64 product lies just below it. *)
Remark formula_below_exact_at_six :
  heuristic_formula 1000000 6 = 1359999 /\ heuristic_exact 1000000 6 = 1360000.
Proof. split; vm_compute; reflexivity. Qed.

(** C3.  For every target role and every number of years [y >= 0] the
    heuristic salary is [int(base * (1 + min(y, 10) * 0.06))] in binary64
    arithmetic, where [base] is the role's entry of the base table and
    450000 for a role not in the table; for "Product Manager" and ten years
    it is 1600000, also through the resolution with no artifact present. *)
Theorem heuristic_salary_spec (role : string) (y : Z) :
  0 <= y ->
  heuristic_salary role y = Ok (heuristic_formula (base_salary role) y)
  /\ (forall b, get BASE_BY_ROLE_INR role = Some b -> base_salary role = b)
  /\ (get BASE_BY_ROLE_INR role = None -> base_salary role = 450000)
  /\ heuristic_salary "Product Manager" 10 = Ok 1600000
  /\ (forall p, target_job p = "Product Manager" -> years_exp p = 10 ->
        resolve_salary no_assets p = Ok (HeuristicSalary 1600000)).
Proof.
  intros Hy. repeat split.
  - now apply heuristic_salary_formula.
  - intros b Hb. unfold base_salary. now rewrite Hb.
  - intros Hn. unfold base_salary. now rewrite Hn.
  - intros p Ht Hp. unfold resolve_salary. simpl. rewrite Ht, Hp.
    vm_compute. reflexivity.
Qed.

Lemma heuristic_salary_spec_witness :
  heuristic_salary "Astronaut" 3 = Ok (heuristic_formula 450000 3).
Proof.
  refine (proj1 (heuristic_salary_spec "Astronaut" 3 _)). lia.
Defined.

(** C7.  For every target role the heuristic salary does not decrease when
    the years of experience grow, and it is the same for all years from 10
    on; in particular it agrees at 10 and at 15 years. *)
Theorem heuristic_salary_monotone (role : string) (y1 y2 : Z) :
  0 <= y1 <= y2 ->
  exists n1 n2,
    heuristic_salary role y1 = Ok n1 /\
    heuristic_salary role y2 = Ok n2 /\
    n1 <= n2 /\
    (10 <= y1 -> n1 = n2) /\
    heuristic_salary role 10 = heuristic_salary role 15.
Proof.
  intros H.
  exists (heuristic_formula (base_salary role) y1),
         (heuristic_formula (base_salary role) y2).
  repeat split.
  - apply heuristic_salary_formula; lia.
  - apply heuristic_salary_formula; lia.
  - apply formula_monotone; [apply base_in_values | exact H].
  - intros H10.
    rewrite (formula_capped _ y1), (formula_capped _ y2).
    now rewrite !Z.min_r by lia.
Qed.

Lemma heuristic_salary_monotone_witness :
  exists n1 n2,
    heuristic_salary "UI/UX Designer" 6 = Ok n1 /\
    heuristic_salary "UI/UX Designer" 12 = Ok n2 /\
    n1 <= n2 /\
    (10 <= 6 -> n1 = n2) /\
    heuristic_salary "UI/UX Designer" 10 = heuristic_salary "UI/UX Designer" 15.
Proof.
  apply (heuristic_salary_monotone "UI/UX Designer" 6 12). lia.
Defined.

(** *** Salary resolution *)

Lemma resolve_salary_cases (a : Assets) (p : Profile) :
  resolve_salary a p =
  if is_true (salary_model a) && schema_true (feat_salary a)
  then match model_salary a p with
       | Ok n => Ok (ModelDerivedSalary n)
       | Raise _ =>
           n <- heuristic_salary (target_job p) (years_exp p) ;;
           Ok (HeuristicSalary n)
       end
  else n <- heuristic_salary (target_job p) (years_exp p) ;;
       Ok (HeuristicSalary n).
Proof.
  unfold resolve_salary.
  destruct (is_true (salary_model a) && schema_true (feat_salary a));
    [|reflexivity].
  destruct (model_salary a p); reflexivity.
Qed.

Lemma heuristic_state (p : Profile) :
  0 <= years_exp p ->
  (n <- heuristic_salary (target_job p) (years_exp p) ;; Ok (HeuristicSalary n))
  = Ok (HeuristicSalary
          (heuristic_formula (base_salary (target_job p)) (years_exp p))).
Proof. intros Hy. now rewrite heuristic_salary_formula. Qed.

Lemma model_salary_predict_raises (a : Assets) (p : Profile) (m : Obj) :
  salary_model a = Some m ->
  (forall feats X df,
      feat_salary a = Some feats ->
      build_salary_row a p feats = Ok X ->
      best_effort_scale (scaler a) (DataFrame X) = Ok df ->
      raises (predict_float m df)) ->
  raises (model_salary a p).
Proof.
  intros Hm Hp. unfold model_salary, raises. rewrite Hm.
  destruct (feat_salary a) as [feats|] eqn:Hf; cbn [schema_items bind];
    eauto.
  destruct (build_salary_row a p feats) as [X|e] eqn:Hb; cbn [bind]; eauto.
  destruct (best_effort_scale (scaler a) (DataFrame X)) as [df|e] eqn:Hs;
    cbn [bind]; eauto.
  destruct (Hp feats X df eq_refl Hb Hs) as [e ->]. cbn [bind]. eauto.
Qed.

Lemma resolve_salary_body_raises (a : Assets) (p : Profile) :
  0 <= years_exp p ->
  raises (model_salary a p) ->
  resolve_salary a p =
  Ok (HeuristicSalary
        (heuristic_formula (base_salary (target_job p)) (years_exp p))).
Proof.
  intros Hy [e R]. rewrite resolve_salary_cases, R, (heuristic_state p Hy).
  now destruct (is_true (salary_model a) && schema_true (feat_salary a)).
Qed.

(** C2.  Salary resolution never raises and ends in exactly one of the two
    terminal states, the model-derived one exactly when model and schema
    are there and the body of the [try] returns; without a salary model or
    without a salary schema it ends in the heuristic state; any exception
    inside the [try] leads to the heuristic state; and with a model whose
    [predict] raises on the row it is given, resolution gives exactly the
    value it gives with no model at all. *)
Theorem salary_resolution_total (a : Assets) (p : Profile) :
  0 <= years_exp p ->
  let h := heuristic_formula (base_salary (target_job p)) (years_exp p) in
  (exists s, resolve_salary a p = Ok s /\
             (s = HeuristicSalary h \/ exists n, s = ModelDerivedSalary n))
  /\ (forall n, resolve_salary a p = Ok (ModelDerivedSalary n) <->
                is_true (salary_model a) && schema_true (feat_salary a) = true
                /\ model_salary a p = Ok n)
  /\ (is_true (salary_model a) = false \/ schema_true (feat_salary a) = false ->
      resolve_salary a p = Ok (HeuristicSalary h))
  /\ (raises (model_salary a p) -> resolve_salary a p = Ok (HeuristicSalary h))
  /\ (forall m, salary_model a = Some m ->
        (forall feats X df,
            feat_salary a = Some feats ->
            build_salary_row a p feats = Ok X ->
            best_effort_scale (scaler a) (DataFrame X) = Ok df ->
            raises (predict_float m df)) ->
        resolve_salary a p = Ok (HeuristicSalary h) /\
        resolve_salary a p = resolve_salary (without_salary_model a) p /\
        resolve_salary a p = resolve_salary no_assets p).
Proof.
  intros Hy h. pose proof (heuristic_state p Hy) as Hh. fold h in Hh.
  split; [|split; [|split; [|split]]].
  - rewrite resolve_salary_cases.
    destruct (is_true (salary_model a) && schema_true (feat_salary a)).
    + destruct (model_salary a p) as [n|e]; eauto.
    + eauto.
  - intros n. rewrite resolve_salary_cases, Hh.
    destruct (is_true (salary_model a) && schema_true (feat_salary a)).
    + destruct (model_salary a p) as [n'|e]; split.
      * intros [= <-]. auto.
      * intros [_ [= <-]]. reflexivity.
      * discriminate.
      * intros [_ H]. discriminate.
    + split; [discriminate | intros [H _]; discriminate].
  - intros Hno. rewrite resolve_salary_cases.
    replace (is_true (salary_model a) && schema_true (feat_salary a))
      with false; [exact Hh|].
    destruct Hno as [-> | ->]; [reflexivity | now rewrite andb_false_r].
  - apply (resolve_salary_body_raises a p Hy).
  - intros m Hm Hp.
    pose proof (resolve_salary_body_raises a p Hy
                  (model_salary_predict_raises a p m Hm Hp)) as R.
    fold h in R. rewrite R. split; [reflexivity|]. split.
    + rewrite (resolve_salary_cases (without_salary_model a)). simpl.
      now rewrite Hh.
    + rewrite (resolve_salary_cases no_assets). simpl. now rewrite Hh.
Qed.

Lemma salary_resolution_total_witness :
  resolve_salary assets_missing_column chosen_profile =
  Ok (HeuristicSalary 1062000)
  /\ resolve_salary assets_missing_column chosen_profile
     = resolve_salary no_assets chosen_profile.
Proof.
  assert (Hy : 0 <= years_exp chosen_profile) by (simpl; lia).
  destruct (salary_resolution_total assets_missing_column chosen_profile Hy)
    as (_ & _ & _ & _ & H).
  destruct (H column_regressor eq_refl) as (H1 & _ & H3).
  - intros feats X df Hf Hb Hs.
    injection Hf as <-. injection Hb as <-. injection Hs as <-.
    exists (KeyError "skill_count"). reflexivity.
  - split; [exact H1 | exact H3].
Defined.

(** *** Dicts *)

Lemma eqb_sym_false (a b : string) : (a == b) = false -> (b == a) = false.
Proof. rewrite !String.eqb_neq. congruence. Qed.

Lemma get_setitem {V} (d : dict V) (k k' : string) (v : V) :
  get (setitem d k v) k' = if k' == k then Some v else get d k'.
Proof.
  induction d as [|[k0 v0] d IH]; simpl.
  - reflexivity.
  - destruct (k == k0) eqn:E; simpl.
    + apply String.eqb_eq in E. subst k0.
      now destruct (k' == k).
    + rewrite IH. destruct (k' == k0) eqn:E0; [|reflexivity].
      apply String.eqb_eq in E0. subst k0.
      now rewrite (eqb_sym_false _ _ E).
Qed.

Lemma contains_In (xs : list string) (x : string) :
  contains xs x = true <-> In x xs.
Proof.
  unfold contains. rewrite existsb_exists. split.
  - intros (y & Hy & E). apply String.eqb_eq in E. now subst.
  - intros H. exists x. split; [exact H | apply String.eqb_refl].
Qed.

Lemma keys_setitem {V} (d : dict V) (k : string) (v : V) :
  keys (setitem d k v) =
  if contains (keys d) k then keys d else (keys d ++ [k])%list.
Proof.
  induction d as [|[k0 v0] d IH]; simpl.
  - reflexivity.
  - destruct (k == k0) eqn:E; simpl.
    + reflexivity.
    + unfold keys in *. rewrite IH.
      now destruct (contains (map fst d) k).
Qed.

Lemma In_keys_setitem {V} (d : dict V) (k k' : string) (v : V) :
  In k' (keys (setitem d k v)) <-> k' = k \/ In k' (keys d).
Proof.
  rewrite keys_setitem. destruct (contains (keys d) k) eqn:E.
  - apply contains_In in E. split; [auto | intros [->|H]; auto].
  - rewrite in_app_iff. simpl. intuition congruence.
Qed.

Lemma NoDup_keys_setitem {V} (d : dict V) (k : string) (v : V) :
  NoDup (keys d) -> NoDup (keys (setitem d k v)).
Proof.
  intros H. rewrite keys_setitem. destruct (contains (keys d) k) eqn:E.
  - exact H.
  - apply NoDup_app; [exact H | repeat constructor; auto |].
    intros x Hx [<-|[]]. apply contains_In in Hx. congruence.
Qed.

Lemma get_None_keys {V} (d : dict V) (k : string) :
  get d k = None <-> ~ In k (keys d).
Proof.
  induction d as [|[k0 v0] d IH]; simpl.
  - tauto.
  - destruct (k == k0) eqn:E.
    + apply String.eqb_eq in E. subst. split; [discriminate | tauto].
    + apply String.eqb_neq in E. rewrite IH. intuition congruence.
Qed.

Lemma In_get {V} (d : dict V) (k : string) (v : V) :
  NoDup (keys d) -> In (k, v) d -> get d k = Some v.
Proof.
  induction d as [|[k0 v0] d IH]; simpl; [tauto|].
  intros ND [E|H].
  - inversion E; subst. now rewrite String.eqb_refl.
  - inversion ND as [|? ? Hn ND']; subst.
    destruct (k == k0) eqn:E.
    + apply String.eqb_eq in E. subst k0. exfalso. apply Hn.
      change k with (fst (k, v)). now apply in_map.
    + now apply IH.
Qed.

(** *** Salary feature row *)

Lemma encoded_code (encs : dict PyObject) (name value : string) :
  (forall enc, get encs name = Some enc -> truth_test_returns enc) ->
  encoded encs name value = Ok (PyInt (encoder_code encs name value)).
Proof.
  intros H. unfold encoded, encoder_code.
  destruct (get encs name) as [enc|]; [|reflexivity].
  destruct (H enc eq_refl) as [b ->]. cbn [bind].
  destruct b; [|reflexivity].
  now destruct (py_transform_int enc value).
Qed.

Lemma encoded_returns (encs : dict PyObject) (name value : string)
  (v : pyval) :
  encoded encs name value = Ok v ->
  v = PyInt (encoder_code encs name value).
Proof.
  unfold encoded, encoder_code.
  destruct (get encs name) as [enc|]; [|now intros [= <-]].
  destruct (py_bool enc) as [b|e]; cbn [bind]; [|discriminate].
  destruct b; [|now intros [= <-]].
  destruct (py_transform_int enc value); simpl; now intros [= <-].
Qed.

Lemma encoded_truth_raises (encs : dict PyObject) (name value : string)
  (enc : PyObject) (e : exn) :
  get encs name = Some enc -> py_bool enc = Raise e ->
  encoded encs name value = Raise e.
Proof. intros G B. unfold encoded. now rewrite G, B. Qed.

Lemma mapping_ordinal (lo mid hi s : string) (dflt : Z) :
  get_default [(lo, 0); (mid, 1); (hi, 2)] s dflt = ordinal lo mid hi dflt s.
Proof.
  unfold get_default, ordinal. simpl.
  destruct (s == lo); [reflexivity|].
  destruct (s == mid); [reflexivity|].
  now destruct (s == hi).
Qed.

Lemma salary_feature_value_spec (a : Assets) (p : Profile) (feat : string) :
  (forall enc, In feat used_encoders -> get (encoders a) feat = Some enc ->
               truth_test_returns enc) ->
  salary_feature_value a p feat = Ok (PyInt (feature_spec a p feat)).
Proof.
  intros H. unfold salary_feature_value, feature_spec.
  unfold portfolio_mapping, language_mapping, remote_mapping.
  rewrite !mapping_ordinal.
  destruct (feat == "current_job_title") eqn:E1.
  { apply String.eqb_eq in E1. subst feat. apply encoded_code.
    intros enc. apply H. simpl. tauto. }
  destruct (feat == "target_job_title") eqn:E2.
  { apply String.eqb_eq in E2. subst feat. apply encoded_code.
    intros enc. apply H. simpl. tauto. }
  destruct (feat == "education_level") eqn:E3.
  { apply String.eqb_eq in E3. subst feat. apply encoded_code.
    intros enc. apply H. simpl. tauto. }
  simpl.
  repeat match goal with
         | |- context [?x == ?s] =>
             destruct (x == s); simpl; try reflexivity
         end.
Qed.

Lemma salary_feature_value_returns (a : Assets) (p : Profile)
  (feat : string) (v : pyval) :
  salary_feature_value a p feat = Ok v ->
  v = PyInt (feature_spec a p feat).
Proof.
  unfold salary_feature_value, feature_spec.
  unfold portfolio_mapping, language_mapping, remote_mapping.
  rewrite !mapping_ordinal.
  destruct (feat == "current_job_title"); [apply encoded_returns|].
  destruct (feat == "target_job_title"); [apply encoded_returns|].
  destruct (feat == "education_level"); [apply encoded_returns|].
  simpl.
  repeat match goal with
         | |- context [?x == ?s] =>
             destruct (x == s); simpl; try (now intros [= <-])
         end.
Qed.

Lemma salary_feature_value_truth_raises (a : Assets) (p : Profile)
  (name : string) (enc : PyObject) (e : exn) :
  In name used_encoders ->
  get (encoders a) name = Some enc -> py_bool enc = Raise e ->
  salary_feature_value a p name = Raise e.
Proof.
  intros Hin G B. unfold salary_feature_value.
  destruct Hin as [<-|[<-|[<-|[]]]]; cbn;
    now apply (encoded_truth_raises _ _ _ enc).
Qed.

Lemma target_column_iff (feat : string) :
  is_target_column feat = false <-> feat <> "estimated_salary_usd".
Proof.
  unfold is_target_column. simpl. rewrite orb_false_r.
  apply String.eqb_neq.
Qed.

Lemma consulted_testable_tail (a : Assets) (feat : string)
  (rest : list string) :
  consulted_testable a (feat :: rest) -> consulted_testable a rest.
Proof. intros H name enc Hu Hin. apply H; simpl; auto. Qed.

Lemma salary_row_loop_returns (a : Assets) (p : Profile)
  (feats : list string) :
  consulted_testable a feats ->
  forall X, exists X', salary_row_loop a p feats X = Ok X'.
Proof.
  induction feats as [|feat rest IH]; intros T X; simpl; [eauto|].
  destruct (is_target_column feat).
  - apply IH. now apply consulted_testable_tail in T.
  - rewrite salary_feature_value_spec.
    + cbn [bind]. apply IH. now apply consulted_testable_tail in T.
    + intros enc Hu G. apply (T feat enc Hu); simpl; auto.
Qed.

Lemma salary_row_loop_props (a : Assets) (p : Profile) (feats : list string) :
  forall X X',
    salary_row_loop a p feats X = Ok X' ->
    NoDup (keys X) ->
    (forall k, In k (keys X) -> get X k = Some (PyInt (feature_spec a p k))) ->
    NoDup (keys X') /\
    (forall k, In k (keys X') <->
               In k (keys X) \/ (In k feats /\ k <> "estimated_salary_usd")) /\
    (forall k, In k (keys X') ->
               get X' k = Some (PyInt (feature_spec a p k))).
Proof.
  induction feats as [|feat rest IH]; intros X X' E ND HV; simpl in E.
  - inversion E. subst X'. split; [exact ND|]. split; [|exact HV].
    intros k. simpl. tauto.
  - destruct (is_target_column feat) eqn:T.
    + destruct (IH X X' E ND HV) as (ND' & K & V).
      split; [exact ND'|]. split; [|exact V].
      intros k. rewrite K. split.
      * intros [H|[H Hne]]; simpl; auto.
      * intros [H|[[<-|H] Hne]]; auto.
        apply target_column_iff in Hne. congruence.
    + apply bind_Ok_inv in E. destruct E as (w & Hw & E).
      apply salary_feature_value_returns in Hw. subst w.
      set (X1 := setitem X feat (PyInt (feature_spec a p feat))) in *.
      destruct (IH X1 X' E) as (ND' & K & V).
      * now apply NoDup_keys_setitem.
      * intros k Hk. unfold X1 in *. rewrite get_setitem.
        destruct (k == feat) eqn:Ek.
        -- apply String.eqb_eq in Ek. now subst.
        -- apply In_keys_setitem in Hk. destruct Hk as [->|Hk]; auto.
           now rewrite String.eqb_refl in Ek.
      * split; [exact ND'|]. split; [|exact V].
        intros k. rewrite K. unfold X1. rewrite In_keys_setitem.
        apply target_column_iff in T. split.
        -- intros [[->|H]|[H Hne]]; simpl; auto.
        -- intros [H|[[<-|H] Hne]]; auto.
Qed.

Lemma build_salary_row_props (a : Assets) (p : Profile) (feats : list string)
  (X : dict pyval) :
  build_salary_row a p feats = Ok X ->
  NoDup (keys X) /\
  (forall k, In k (keys X) <-> In k feats /\ k <> "estimated_salary_usd") /\
  (forall k, In k (keys X) -> get X k = Some (PyInt (feature_spec a p k))).
Proof.
  intros E.
  destruct (salary_row_loop_props a p feats [] X E) as (ND & K & V).
  - constructor.
  - intros k [].
  - split; [exact ND|]. split; [|exact V].
    intros k. rewrite K. simpl. tauto.
Qed.

Lemma salary_row_loop_truth_raises (a : Assets) (p : Profile)
  (feats : list string) (name : string) (enc : PyObject) (e : exn) :
  In name used_encoders -> In name feats ->
  get (encoders a) name = Some enc -> py_bool enc = Raise e ->
  forall X, raises (salary_row_loop a p feats X).
Proof.
  intros Hu Hin G B.
  induction feats as [|feat rest IH]; intros X; [destruct Hin|].
  simpl. destruct (String.string_dec feat name) as [->|Hne].
  - assert (T : is_target_column name = false).
    { destruct Hu as [<-|[<-|[<-|[]]]]; reflexivity. }
    rewrite T, (salary_feature_value_truth_raises a p name enc e Hu G B).
    exists e. reflexivity.
  - assert (Hin' : In name rest) by (destruct Hin; [congruence | assumption]).
    destruct (is_target_column feat); [now apply IH|].
    destruct (salary_feature_value a p feat) as [w|e']; cbn [bind].
    + now apply IH.
    + exists e'. reflexivity.
Qed.

(** C5, as the script does it.  For every profile and every salary
    feature schema: when the truth test of each encoder the schema makes
    the loop consult returns, the row builder returns a row; a row it
    returns has exactly the schema's names other than the target column
    [estimated_salary_usd] as keys, each bound to an int: the encoder's
    code for the three label-encoded fields (0 without a usable encoder or
    when its transform raises), the fixed ordinal codes (portfolio and
    language defaulting to 1, remote preference to 0), 1 for
    certifications unless the value is "None", the three numeric inputs
    unchanged, and 0 for any other name.  When the truth test of a
    consulted encoder raises, the builder raises. *)
Theorem salary_row_complete_numeric (a : Assets) (p : Profile)
  (feats : list string) :
  (consulted_testable a feats ->
   exists X, build_salary_row a p feats = Ok X)
  /\ (forall X,
        build_salary_row a p feats = Ok X ->
        NoDup (keys X) /\
        (forall k, In k (keys X) <->
                   In k feats /\ k <> "estimated_salary_usd") /\
        (forall k, In k (keys X) ->
                   get X k = Some (PyInt (feature_spec a p k))) /\
        (forall k v, In (k, v) X -> is_numeric v = true /\ v <> PyNone))
  /\ (forall name enc e,
        In name used_encoders -> In name feats ->
        get (encoders a) name = Some enc -> py_bool enc = Raise e ->
        raises (build_salary_row a p feats)).
Proof.
  split; [|split].
  - intros T. apply salary_row_loop_returns, T.
  - intros X E. destruct (build_salary_row_props a p feats X E) as (ND & K & V).
    assert (G : forall k v, In (k, v) X -> v = PyInt (feature_spec a p k)).
    { intros k v H. pose proof (In_get X k v ND H) as G.
      rewrite V in G; [congruence|].
      change k with (fst (k, v)). now apply in_map. }
    split; [exact ND|]. split; [exact K|]. split; [exact V|].
    intros k v H. rewrite (G k v H). split; [reflexivity | discriminate].
  - intros name enc e Hu Hin G B.
    apply (salary_row_loop_truth_raises a p feats name enc e Hu Hin G B).
Qed.

Lemma salary_row_complete_numeric_witness :
  exists X,
    build_salary_row assets_role_encoder chosen_profile
      ["current_job_title"; "estimated_salary_usd"; "certifications"] = Ok X.
Proof.
  apply (proj1 (salary_row_complete_numeric assets_role_encoder chosen_profile
                  ["current_job_title"; "estimated_salary_usd";
                   "certifications"])).
  intros name enc Hu Hin G. exists true.
  destruct Hin as [<-|[<-|[<-|[]]]]; try discriminate.
  now inversion G.
Defined.

(** C5 does not hold for an encoder whose truth test raises: with a
    current-job encoder file that holds an array the row builder raises
    instead of binding 0 (the salary block then shows the heuristic). *)
Lemma array_encoder_aborts_row :
  py_bool array_object = Raise ValueError /\
  get (encoders assets_array_encoder) "current_job_title" = Some array_object /\
  build_salary_row assets_array_encoder chosen_profile
    ["current_job_title"; "years_of_experience"] = Raise ValueError /\
  resolve_salary assets_array_encoder chosen_profile =
  Ok (HeuristicSalary 1062000).
Proof.
  split; [reflexivity|]. split; [reflexivity|]. split; [reflexivity|].
  vm_compute. reflexivity.
Qed.

Lemma encoder_code_cases (encs : dict PyObject) (name value : string) :
  (get encs name = None -> encoder_code encs name value = 0) /\
  (forall enc, get encs name = Some enc ->
     (py_bool enc = Ok false -> encoder_code encs name value = 0) /\
     (py_bool enc = Ok true -> raises (py_transform_int enc value) ->
      encoder_code encs name value = 0) /\
     (forall n, py_bool enc = Ok true -> py_transform_int enc value = Ok n ->
      encoder_code encs name value = n)).
Proof.
  unfold encoder_code. split.
  - now intros ->.
  - intros enc ->. repeat split.
    + now intros ->.
    + intros -> [e ->]. reflexivity.
    + intros n -> ->. reflexivity.
Qed.

Lemma ordinal_cases (lo mid hi s : string) (dflt : Z) :
  ordinal lo mid hi dflt lo = 0 /\
  (mid <> lo -> ordinal lo mid hi dflt mid = 1) /\
  (hi <> lo -> hi <> mid -> ordinal lo mid hi dflt hi = 2) /\
  (s <> lo -> s <> mid -> s <> hi -> ordinal lo mid hi dflt s = dflt).
Proof.
  unfold ordinal. rewrite !String.eqb_refl. repeat split.
  - intros H. apply String.eqb_neq in H. now rewrite H.
  - intros H1 H2. apply String.eqb_neq in H1, H2.
    now rewrite H1, H2.
  - intros H1 H2 H3. apply String.eqb_neq in H1, H2, H3.
    now rewrite H1, H2, H3.
Qed.

(** A schema with a repeated name and the target column: the target is
    skipped, the repeated name is bound once, the unknown name gets 0. *)
Example salary_row_sample :
  build_salary_row no_assets (snd (validate sample_profile)) sample_schema =
  Ok [ ("years_of_experience", PyInt 10); ("certifications", PyInt 0);
       ("portfolio_strength", PyInt 2); ("skill_count", PyInt 0) ].
Proof. reflexivity. Qed.

Lemma salary_row_loop_without_scaler (a : Assets) (p : Profile)
  (feats : list string) :
  forall X,
    salary_row_loop (without_scaler a) p feats X = salary_row_loop a p feats X.
Proof.
  induction feats as [|feat rest IH]; intros X; simpl; [reflexivity|].
  destruct (is_target_column feat); [apply IH|].
  change (salary_feature_value (without_scaler a) p feat)
    with (salary_feature_value a p feat).
  destruct (salary_feature_value a p feat); simpl; [apply IH | reflexivity].
Qed.

Lemma best_effort_scale_raises (s : Obj) (df : frame) :
  raises (scale s df) -> best_effort_scale (Some s) df = Ok df.
Proof.
  intros [e H]. unfold best_effort_scale. rewrite H.
  now destruct (truthy s).
Qed.

(** C8.  With a salary model and schema available and a registered scaler
    whose transform raises, resolution goes on with the unscaled row: it
    gives what it gives without a scaler, and when the model predicts [usd]
    on the unscaled row the result is the model-derived [int(usd * 82.0)],
    not the heuristic. *)
Theorem scaler_failure_proceeds_unscaled (a : Assets) (p : Profile)
  (m s : Obj) (feats : list string) (X : dict pyval) :
  salary_model a = Some m -> truthy m = true ->
  feat_salary a = Some feats -> feats <> [] ->
  scaler a = Some s -> truthy s = true ->
  build_salary_row a p feats = Ok X ->
  raises (scale s (DataFrame X)) ->
  resolve_salary a p = resolve_salary (without_scaler a) p /\
  (forall usd n,
      predict_float m (DataFrame X) = Ok usd -> usd_to_inr usd = Ok n ->
      resolve_salary a p = Ok (ModelDerivedSalary n)).
Proof.
  intros Hm Tm Hf Hne Hs Ts Hb Hr.
  assert (M : model_salary a p =
              (salary_usd <- predict_float m (DataFrame X) ;;
               usd_to_inr salary_usd)).
  { unfold model_salary. rewrite Hf, Hm, Hs. cbn [schema_items bind].
    rewrite Hb. cbn [bind].
    now rewrite best_effort_scale_raises. }
  assert (M' : model_salary (without_scaler a) p = model_salary a p).
  { rewrite M. unfold model_salary, build_salary_row.
    change (feat_salary (without_scaler a)) with (feat_salary a).
    change (salary_model (without_scaler a)) with (salary_model a).
    change (scaler (without_scaler a)) with (@None Obj).
    rewrite Hf, Hm. cbn [schema_items bind].
    rewrite salary_row_loop_without_scaler.
    unfold build_salary_row in Hb. now rewrite Hb. }
  split.
  - rewrite !resolve_salary_cases. simpl. now rewrite M'.
  - intros usd n Hp Hn. rewrite resolve_salary_cases, M, Hp. simpl.
    rewrite Hn, Hm. simpl. rewrite Tm, Hf.
    destruct feats; [congruence | reflexivity].
Qed.

Lemma scaler_failure_proceeds_unscaled_witness :
  resolve_salary assets_failing_scaler sample_profile =
  Ok (ModelDerivedSalary 82000).
Proof.
  refine (proj2 (scaler_failure_proceeds_unscaled
                   assets_failing_scaler sample_profile
                   flat_regressor failing_scaler sample_schema _
                   eq_refl eq_refl eq_refl _ eq_refl eq_refl eq_refl _)
                (Z2F 1000) 82000 eq_refl eq_refl).
  - discriminate.
  - exists ValueError. reflexivity.
Defined.

(** *** Validation *)

Lemma In_append_if_keep (c : bool) (errors : list string) (m msg : string) :
  In m errors -> In m (append_if c errors msg).
Proof.
  intros H. unfold append_if. destruct c; [|exact H].
  apply in_or_app. now left.
Qed.

Lemma In_append_if_new (errors : list string) (msg : string) :
  In msg (append_if true errors msg).
Proof. unfold append_if. apply in_or_app. right. now left. Qed.

Lemma validate_target_job (p : Profile) :
  target_job (snd (validate p)) = target_job p /\
  years_exp (snd (validate p)) = years_exp p.
Proof.
  unfold validate. simpl.
  destruct (certifications p == "Select..."); split; reflexivity.
Qed.

Lemma validate_language_remote (p : Profile) :
  let q := if certifications p == "Select..."
           then with_certifications p "None" else p in
  language_proficiency q = language_proficiency p /\
  remote_pref q = remote_pref p.
Proof. simpl. destruct (certifications p == "Select..."); split; reflexivity. Qed.

Lemma validate_reports (p : Profile) (f : Required) :
  field_value f p = placeholder f ->
  In (field_message f) (fst (validate p)).
Proof.
  intros H. unfold validate. cbn [fst].
  destruct (validate_language_remote p) as [L R]. cbv zeta in L, R.
  rewrite L, R.
  destruct f; cbn [field_value placeholder field_message] in *; rewrite H;
    rewrite String.eqb_refl;
    repeat first [ apply In_append_if_new | apply In_append_if_keep ].
Qed.

Lemma script_rejects (a : Assets) (p : Profile) :
  fst (validate p) <> [] ->
  script a true p = Ok (Rejected (fst (validate p))).
Proof.
  intros H. unfold script. cbn [negb].
  destruct (validate p) as [errors p']. cbn [fst] in *.
  destruct errors; [congruence | reflexivity].
Qed.

Lemma script_accepts (a : Assets) (p : Profile) :
  fst (validate p) = [] ->
  script a true p = (r <- analysis a (snd (validate p)) ;; Ok (Analysed r)).
Proof.
  intros H. unfold script. cbn [negb].
  destruct (validate p) as [errors p']. cbn [fst snd] in *.
  now subst errors.
Qed.

(** C4, as the script does it.  For every profile in which the current
    job, the target job, the education, the portfolio strength, the
    language proficiency or the remote preference is left at its
    placeholder, validation reports that field in its error list and the
    script stops there: whatever the artifacts, the outcome is the error
    list and never an analysis. *)
Theorem validation_blocks_analysis (a : Assets) (p : Profile) (f : Required) :
  field_value f p = placeholder f ->
  In (field_message f) (fst (validate p)) /\
  script a true p = Ok (Rejected (fst (validate p))) /\
  (forall analyze r, script a analyze p <> Ok (Analysed r)).
Proof.
  intros H. pose proof (validate_reports p f H) as Hin.
  assert (Hne : fst (validate p) <> []).
  { intros E. rewrite E in Hin. exact Hin. }
  split; [exact Hin|]. split; [now apply script_rejects|].
  intros [|] r.
  - rewrite script_rejects by exact Hne. discriminate.
  - discriminate.
Qed.

Lemma validation_blocks_analysis_witness :
  In "Select your education level." (fst (validate untouched_profile)) /\
  script assets_failing_scaler true untouched_profile =
  Ok (Rejected (fst (validate untouched_profile))).
Proof.
  destruct (validation_blocks_analysis assets_failing_scaler
              untouched_profile ReqEducation eq_refl) as (H1 & H2 & _).
  split; [exact H1 | exact H2].
Defined.

(** C4 does not hold for the certifications field: left at its
    placeholder, with every other field chosen, nothing is reported and
    the analysis runs. *)
Lemma certifications_placeholder_not_reported :
  certifications sample_profile = "Select..." /\
  fst (validate sample_profile) = [] /\
  exists r, script no_assets true sample_profile = Ok (Analysed r) /\
            rep_salary r = HeuristicSalary 1600000.
Proof.
  split; [reflexivity|]. split; [reflexivity|].
  eexists. split; [vm_compute; reflexivity | reflexivity].
Qed.

(** *** Career preview *)

Lemma career_preview_returns (a : Assets) (p : Profile) :
  exists v, career_preview a p = Ok v.
Proof.
  unfold career_preview.
  destruct (is_true (career_model a) && schema_true (feat_career a)); eauto.
  destruct (model_preview a p); simpl; eauto.
Qed.

Lemma career_preview_failure (a : Assets) (p : Profile) :
  is_true (career_model a) && schema_true (feat_career a) = true ->
  raises (model_preview a p) ->
  career_preview a p = Ok NoSuggestion.
Proof.
  intros C [e H]. unfold career_preview. now rewrite C, H.
Qed.

Lemma career_row_loop_without_scaler (a : Assets) (p : Profile)
  (feats : list string) :
  forall X,
    career_row_loop (without_scaler a) p feats X = career_row_loop a p feats X.
Proof.
  induction feats as [|feat rest IH]; intros X; simpl; [reflexivity|].
  change (career_feature_value (without_scaler a) p feat)
    with (career_feature_value a p feat).
  destruct (career_feature_value a p feat); simpl; [apply IH | reflexivity].
Qed.

Lemma analysis_role (a : Assets) (p : Profile) (r : Report) :
  analysis a p = Ok r -> rep_role r = target_job p.
Proof.
  unfold analysis. intros H.
  repeat (apply bind_Ok_inv in H; destruct H as (? & _ & H)).
  inversion H. reflexivity.
Qed.

Lemma script_role (a : Assets) (analyze : bool) (p : Profile) (r : Report) :
  script a analyze p = Ok (Analysed r) -> rep_role r = target_job p.
Proof.
  unfold script. destruct analyze; cbn [negb]; [|discriminate].
  destruct (validate_target_job p) as [T _].
  destruct (validate p) as [errors p']. cbn [snd] in T.
  destruct errors; cbn beta iota; [|discriminate].
  destruct (analysis a p') as [r'|] eqn:E; simpl; [|discriminate].
  intros H. inversion H. subst r'. rewrite <- T. now apply (analysis_role a).
Qed.

(** C6, as the script does it.  The recommended role is always the user's
    target role, whatever the career model is or predicts, and the preview
    never raises.  With a model and schema present, any exception that
    leaves the body of the [try] gives "no suggestion": so does a failure
    while the row is built, and so does a [predict] that raises on the row
    it is given.  A scaler whose transform raises is skipped and the
    preview is the one computed without a scaler.  When decoding the
    predicted label with the target-job encoder raises, the preview shows
    [str] of the label. *)
Theorem career_preview_best_effort (a : Assets) (p : Profile) :
  recommended_role a p = target_job p
  /\ (forall analyze r,
        script a analyze p = Ok (Analysed r) -> rep_role r = target_job p)
  /\ (exists v, career_preview a p = Ok v)
  /\ (is_true (career_model a) && schema_true (feat_career a) = true ->
      raises (model_preview a p) ->
      career_preview a p = Ok NoSuggestion)
  /\ (forall feats,
        is_true (career_model a) = true ->
        feat_career a = Some feats -> feats <> [] ->
        raises (career_row_loop a p feats []) ->
        career_preview a p = Ok NoSuggestion)
  /\ (forall m feats Xin df,
        career_model a = Some m -> truthy m = true ->
        feat_career a = Some feats -> feats <> [] ->
        career_row_loop a p feats [] = Ok Xin ->
        best_effort_scale (scaler a) (DataFrame Xin) = Ok df ->
        raises (predict_label m df) ->
        career_preview a p = Ok NoSuggestion)
  /\ (forall s feats Xin,
        scaler a = Some s -> feat_career a = Some feats ->
        career_row_loop a p feats [] = Ok Xin ->
        raises (scale s (DataFrame Xin)) ->
        career_preview a p = career_preview (without_scaler a) p)
  /\ (forall m feats Xin df l enc shown,
        career_model a = Some m -> truthy m = true ->
        feat_career a = Some feats -> feats <> [] ->
        career_row_loop a p feats [] = Ok Xin ->
        best_effort_scale (scaler a) (DataFrame Xin) = Ok df ->
        predict_label m df = Ok l ->
        get (encoders a) "target_job_title" = Some enc ->
        py_bool enc = Ok true ->
        raises (n <- label_int l ;; py_inverse_transform enc n) ->
        label_str l = Ok shown ->
        career_preview a p = Ok (ModelSuggestion shown)).
Proof.
  split; [reflexivity|]. split; [intros analyze r; apply script_role|].
  split; [apply career_preview_returns|].
  split; [apply career_preview_failure|].
  split; [|split; [|split]].
  - intros feats Hm Hf Hne [e Hfail].
    apply career_preview_failure.
    + rewrite Hm, Hf. now destruct feats.
    + unfold model_preview, raises. rewrite Hf. cbn [schema_items bind].
      rewrite Hfail. cbn [bind]. eauto.
  - intros m feats Xin df Hm Tm Hf Hne Hb Hs [e Hp].
    apply career_preview_failure.
    + rewrite Hm, Hf. cbn [is_true]. rewrite Tm. now destruct feats.
    + unfold model_preview, raises. rewrite Hf. cbn [schema_items bind].
      rewrite Hb. cbn [bind]. rewrite Hs. cbn [bind].
      rewrite Hm, Hp. cbn [bind]. eauto.
  - intros s feats Xin Hs Hf Hb Hr. unfold career_preview, model_preview.
    change (feat_career (without_scaler a)) with (feat_career a).
    change (career_model (without_scaler a)) with (career_model a).
    change (scaler (without_scaler a)) with (@None Obj).
    change (encoders (without_scaler a)) with (encoders a).
    rewrite Hf, Hs. cbn [schema_items bind].
    rewrite career_row_loop_without_scaler, Hb. cbn [bind].
    now rewrite best_effort_scale_raises.
  - intros m feats Xin df l enc shown Hm Tm Hf Hne Hb Hs Hp He Te [e Hr] Hl.
    unfold career_preview, model_preview, decode_label.
    rewrite Hm, Hf. cbn [is_true schema_items bind]. rewrite Tm, Hb.
    cbn [bind]. rewrite Hs. cbn [bind]. rewrite Hp. cbn [bind].
    rewrite He, Te. cbn [bind]. rewrite Hr. cbn [try_except].
    rewrite Hl. cbn [bind].
    destruct feats; [congruence | reflexivity].
Qed.

Lemma career_preview_best_effort_witness :
  career_preview assets_missing_column chosen_profile = Ok NoSuggestion.
Proof.
  destruct (career_preview_best_effort assets_missing_column chosen_profile)
    as (_ & _ & _ & _ & _ & H & _).
  refine (H column_classifier ["years_of_experience"] _ _
            eq_refl eq_refl eq_refl _ eq_refl eq_refl _).
  - discriminate.
  - exists (KeyError "skill_count"). reflexivity.
Defined.

(** C6 does not hold at the scaling and decoding stages: with a scaler
    whose transform raises and a target-job encoder whose inverse transform
    raises, the preview still shows a suggestion. *)
Lemma scaler_failure_still_suggests :
  (forall df, scale failing_scaler df = Raise ValueError) /\
  (forall n, py_inverse_transform plain_encoder n = Raise AttributeError) /\
  scaler assets_failing_scaler = Some failing_scaler /\
  get (encoders assets_failing_scaler) "target_job_title" = Some plain_encoder /\
  career_preview assets_failing_scaler sample_profile = Ok (ModelSuggestion "3") /\
  career_preview assets_failing_scaler sample_profile <> Ok NoSuggestion.
Proof.
  repeat split; discriminate.
Qed.

(** *** Role content *)

Lemma skill_gaps_returns (role : string) : exists g, skill_gaps role = Ok g.
Proof. eexists. reflexivity. Qed.

Lemma courses_returns (role : string) : exists c, courses role = Ok c.
Proof. eexists. reflexivity. Qed.

Lemma roadmap_shown (role : string) :
  exists rm view, roadmap role = Ok rm /\ show_roadmap rm = Ok view.
Proof.
  unfold roadmap, lookup_role, getitem, get_default. simpl.
  repeat match goal with
         | |- context [role == ?s] =>
             destruct (role == s); [do 2 eexists; split; reflexivity|]
         end.
  do 2 eexists; split; reflexivity.
Qed.

Lemma lookup_role_absent {V} (table : dict V) (role : string) (dflt : V) :
  get table "Data Scientist" = Some dflt ->
  get table role = None ->
  lookup_role table role = Ok dflt /\
  lookup_role table role = lookup_role table "Data Scientist".
Proof.
  intros Hd Hr. unfold lookup_role, getitem, get_default.
  rewrite Hd, Hr. simpl. split; reflexivity.
Qed.

(** C9.  Every role offered by the selectors has a non-empty entry in the
    skill-gap table, in the course table after the load-time fill and in
    the roadmap table (five non-empty stage texts), and each lookup returns
    that entry; for a role absent from a table the lookup returns the
    "Data Scientist" content. *)
Theorem role_content_complete :
  (forall r, In r role_options ->
     exists g c rm view,
       get ROLE_SKILL_GAPS r = Some g /\ skill_gaps r = Ok g /\ g <> [] /\
       get ROLE_COURSES r = Some (Some c) /\ courses r = Ok (Some c) /\
       c <> [] /\
       get ROLE_ROADMAP r = Some rm /\ roadmap r = Ok rm /\
       show_roadmap rm = Ok view /\ nonempty_stages view)
  /\ (forall r, get ROLE_SKILL_GAPS r = None ->
        skill_gaps r = skill_gaps "Data Scientist")
  /\ (forall r, get ROLE_COURSES r = None ->
        courses r = courses "Data Scientist")
  /\ (forall r, get ROLE_ROADMAP r = None ->
        roadmap r = roadmap "Data Scientist")
  /\ (exists g c rm,
        skill_gaps "Data Scientist" = Ok g /\ g <> [] /\
        courses "Data Scientist" = Ok (Some c) /\ c <> [] /\
        roadmap "Data Scientist" = Ok rm /\ rm <> []).
Proof.
  split; [|split; [|split; [|split]]].
  - intros r H. unfold role_options in H. simpl in H.
    repeat (destruct H as [<-|H];
            [ do 4 eexists;
              repeat (split; [reflexivity || discriminate|]);
              unfold nonempty_stages; simpl; repeat split; discriminate |]).
    destruct H.
  - intros r H. unfold skill_gaps.
    eapply lookup_role_absent; [reflexivity | exact H].
  - intros r H. unfold courses.
    eapply lookup_role_absent; [reflexivity | exact H].
  - intros r H. unfold roadmap.
    eapply lookup_role_absent; [reflexivity | exact H].
  - do 3 eexists. repeat (split; [reflexivity || discriminate|]). discriminate.
Qed.

Lemma role_content_complete_witness :
  (exists g c rm view,
     get ROLE_SKILL_GAPS "Marketing Analyst" = Some g /\
     skill_gaps "Marketing Analyst" = Ok g /\ g <> [] /\
     get ROLE_COURSES "Marketing Analyst" = Some (Some c) /\
     courses "Marketing Analyst" = Ok (Some c) /\ c <> [] /\
     get ROLE_ROADMAP "Marketing Analyst" = Some rm /\
     roadmap "Marketing Analyst" = Ok rm /\
     show_roadmap rm = Ok view /\ nonempty_stages view)
  /\ skill_gaps "Astronaut" = skill_gaps "Data Scientist"
  /\ courses "Astronaut" = courses "Data Scientist"
  /\ roadmap "Astronaut" = roadmap "Data Scientist".
Proof.
  destruct role_content_complete as (H1 & H2 & H3 & H4 & _).
  split; [|split; [|split]].
  - apply H1. unfold role_options. simpl. tauto.
  - apply H2. reflexivity.
  - apply H3. reflexivity.
  - apply H4. reflexivity.
Defined.

(** *** Certifications placeholder *)

Lemma resolve_salary_returns (a : Assets) (p : Profile) :
  0 <= years_exp p -> exists s, resolve_salary a p = Ok s.
Proof.
  intros Hy. rewrite resolve_salary_cases, (heuristic_state p Hy).
  destruct (is_true (salary_model a) && schema_true (feat_salary a)); eauto.
  destruct (model_salary a p); eauto.
Qed.

Lemma analysis_returns (a : Assets) (p : Profile) :
  0 <= years_exp p -> exists r, analysis a p = Ok r.
Proof.
  intros Hy. unfold analysis.
  destruct (resolve_salary_returns a p Hy) as [s ->].
  destruct (career_preview_returns a p) as [v ->].
  destruct (skill_gaps_returns (target_job p)) as [g ->].
  destruct (courses_returns (target_job p)) as [c ->].
  destruct (roadmap_shown (target_job p)) as (rm & view & -> & Hv).
  cbn [bind]. rewrite Hv. cbn [bind]. eauto.
Qed.

Lemma chosen_eqb (p : Profile) (f : Required) :
  all_chosen p -> (field_value f p == placeholder f) = false.
Proof. intros H. apply String.eqb_neq. apply H. Qed.

Lemma validate_certifications_placeholder (p : Profile) :
  certifications p = "Select..." -> all_chosen p ->
  validate p = ([], with_certifications p "None").
Proof.
  intros Hc Hall. unfold validate.
  pose proof (chosen_eqb p ReqCurrentJob Hall) as H1.
  pose proof (chosen_eqb p ReqTargetJob Hall) as H2.
  pose proof (chosen_eqb p ReqEducation Hall) as H3.
  pose proof (chosen_eqb p ReqPortfolio Hall) as H4.
  pose proof (chosen_eqb p ReqLanguage Hall) as H5.
  pose proof (chosen_eqb p ReqRemote Hall) as H6.
  cbn [field_value placeholder] in *.
  rewrite Hc, H1, H2, H3, H4, String.eqb_refl.
  cbn [with_certifications language_proficiency remote_pref].
  now rewrite H5, H6.
Qed.

Lemma career_row_loop_get (a : Assets) (p : Profile) (feats : list string) :
  forall X X' k,
    career_row_loop a p feats X = Ok X' ->
    In k feats ->
    exists v, career_feature_value a p k = Ok v /\ get X' k = Some v.
Proof.
  assert (Keep : forall fs X X' k v,
             career_row_loop a p fs X = Ok X' ->
             career_feature_value a p k = Ok v ->
             get X k = Some v -> get X' k = Some v).
  { induction fs as [|f rest IH]; intros X X' k v HL Hv Hg; simpl in HL.
    - now inversion HL; subst.
    - apply bind_Ok_inv in HL. destruct HL as (w & Hw & HL).
      apply (IH _ _ _ _ HL Hv). rewrite get_setitem.
      destruct (k == f) eqn:E; [|exact Hg].
      apply String.eqb_eq in E. subst f. congruence. }
  induction feats as [|feat rest IH]; intros X X' k HL Hin; [destruct Hin|].
  simpl in HL. apply bind_Ok_inv in HL. destruct HL as (w & Hw & HL).
  destruct (String.string_dec feat k) as [->|Hne].
  - exists w. split; [exact Hw|].
    apply (Keep _ _ _ _ _ HL Hw). rewrite get_setitem.
    now rewrite String.eqb_refl.
  - destruct Hin as [E|Hin]; [congruence|]. now apply (IH _ _ _ HL).
Qed.

(** C10.  When the certifications field is left at "Select..." and every
    other required field is chosen, validation reports nothing and hands on
    the profile with certifications set to "None"; the analysis runs; and
    the certifications feature is 0 in the salary row and in the career row
    of every schema that names it. *)
Theorem certifications_placeholder_coerced (a : Assets) (p : Profile) :
  certifications p = "Select..." -> all_chosen p -> 0 <= years_exp p ->
  validate p = ([], with_certifications p "None")
  /\ (exists r, script a true p = Ok (Analysed r))
  /\ salary_feature_value a (snd (validate p)) "certifications" = Ok (PyInt 0)
  /\ (forall feats X,
        build_salary_row a (snd (validate p)) feats = Ok X ->
        In "certifications" feats ->
        get X "certifications" = Some (PyInt 0))
  /\ (forall feats Xin,
        career_row_loop a (snd (validate p)) feats [] = Ok Xin ->
        In "certifications" feats ->
        get Xin "certifications" = Some (PyInt 0)).
Proof.
  intros Hc Hall Hy.
  pose proof (validate_certifications_placeholder p Hc Hall) as V.
  split; [exact V|]. split; [|split; [|split]].
  - rewrite script_accepts by now rewrite V.
    rewrite V. cbn [snd].
    destruct (analysis_returns a (with_certifications p "None")) as [r ->];
      [exact Hy | simpl; eauto].
  - rewrite V. reflexivity.
  - rewrite V. cbn [snd]. intros feats X HX Hin.
    destruct (build_salary_row_props _ _ _ _ HX) as (_ & K & G).
    rewrite G; [reflexivity|].
    apply K. split; [exact Hin | discriminate].
  - rewrite V. cbn [snd]. intros feats Xin HX Hin.
    destruct (career_row_loop_get _ _ _ _ _ _ HX Hin) as (v & Hv & Hg).
    rewrite Hg. f_equal. cbv in Hv. congruence.
Qed.

Lemma certifications_placeholder_coerced_witness :
  validate sample_profile = ([], with_certifications sample_profile "None")
  /\ salary_feature_value assets_failing_scaler (snd (validate sample_profile))
       "certifications" = Ok (PyInt 0).
Proof.
  destruct (certifications_placeholder_coerced assets_failing_scaler
              sample_profile) as (H1 & _ & H3 & _).
  - reflexivity.
  - intros f. destruct f; discriminate.
  - simpl. lia.
  - split; [exact H1 | exact H3].
Defined.

(** *** Artifact loading *)

Lemma loaders_return (fs : FileSystem) (path : string) :
  (exists r, safe_load_pickle_first fs path = Ok r) /\
  (exists r, safe_load_pickle fs path = Ok r) /\
  (exists r, load_json fs path = Ok r) /\
  (raises (pickle_load fs path) -> safe_load_pickle_first fs path = Ok None) /\
  (raises (joblib_load fs path) -> safe_load_pickle fs path = Ok None) /\
  (raises (json_load fs path) -> load_json fs path = Ok None).
Proof.
  unfold safe_load_pickle_first, safe_load_pickle, load_json.
  repeat split;
    first [ apply try_except_returns | apply try_except_raise ].
Qed.

Lemma call_safe_load_pickle (fs : FileSystem) (path : string) :
  call (module_loaders fs) "safe_load_pickle" path = safe_load_pickle fs path.
Proof. reflexivity. Qed.

Lemma call_safe_load_joblib (fs : FileSystem) (path : string) :
  call (module_loaders fs) "safe_load_joblib" path =
  Raise (NameError "safe_load_joblib").
Proof. reflexivity. Qed.

(** Whatever the files hold, the loading block does not return.  Line 55
    tests the truth of the scaler loaded by [safe_load_pickle]: when that
    test raises, its exception leaves the block; otherwise the block stops
    at the first call of [safe_load_joblib], a name no [def] binds (line 55
    for a missing or falsy scaler, else line 66). *)
Lemma load_assets_outcome (fs : FileSystem) :
  exists s1,
    safe_load_pickle fs "scaler.pkl" = Ok s1 /\
    load_assets fs =
    (b <- py_truth s1 ;; Raise (NameError "safe_load_joblib")).
Proof.
  unfold load_assets. rewrite !call_safe_load_pickle.
  destruct (loaders_return fs "salary_model.pkl") as (_ & [sm ->] & _).
  destruct (loaders_return fs "career_recommender.pkl") as (_ & [cm ->] & _).
  destruct (loaders_return fs "scaler.pkl") as (_ & [s1 ->] & _).
  exists s1. split; [reflexivity|]. cbn [bind].
  destruct (py_truth s1) as [b|e]; cbn [bind]; [|reflexivity].
  destruct b; reflexivity.
Qed.

Lemma load_assets_raises (fs : FileSystem) : raises (load_assets fs).
Proof.
  destruct (load_assets_outcome fs) as (s1 & _ & ->).
  destruct (py_truth s1) as [b|e]; cbn [bind]; eexists; reflexivity.
Qed.

(** C1, on a working directory without artifact files.  The two helpers
    return [None] there and never raise; the module-level loading of the
    scaler does not get that far: it raises [NameError], and so does the
    program. *)
Theorem load_assets_no_files :
  safe_load_pickle no_files "salary_model.pkl" = Ok None /\
  safe_load_pickle no_files "scaler.pkl" = Ok None /\
  load_json no_files "feature_columns_salary.json" = Ok None /\
  load_assets no_files = Raise (NameError "safe_load_joblib") /\
  app no_files true sample_profile = Raise (NameError "safe_load_joblib").
Proof.
  repeat split.
Qed.

(* ===================================================================== *)
(** ** Further properties of the script *)
(* ===================================================================== *)

(** *** Validation and the outcome of a run *)

Lemma validate_errors_filter (p : Profile) :
  fst (validate p) =
  map field_message (filter (at_placeholder p) required_fields).
Proof.
  unfold validate, required_fields, at_placeholder. cbn [fst].
  destruct (validate_language_remote p) as [L R]. cbv zeta in L, R.
  rewrite L, R.
  cbn [filter map field_value placeholder].
  destruct (current_job p == "Select current job");
    destruct (target_job p == "Select target job");
    destruct (education p == "Select education");
    destruct (portfolio_strength p == "Select...");
    destruct (language_proficiency p == "Select...");
    destruct (remote_pref p == "Select..."); reflexivity.
Qed.

Lemma required_fields_all (f : Required) : In f required_fields.
Proof. destruct f; simpl; tauto. Qed.

Lemma required_fields_NoDup : NoDup required_fields.
Proof. repeat constructor; simpl; intuition discriminate. Qed.

Lemma field_message_inj (f g : Required) :
  field_message f = field_message g -> f = g.
Proof. destruct f, g; simpl; intros H; try reflexivity; discriminate. Qed.

Lemma validate_accepts_iff (p : Profile) :
  fst (validate p) = [] <-> all_chosen p.
Proof.
  rewrite validate_errors_filter. split.
  - intros H f. apply String.eqb_neq.
    destruct (field_value f p == placeholder f) eqn:E; [|reflexivity].
    apply map_eq_nil in H.
    assert (I : In f (filter (at_placeholder p) required_fields)).
    { apply filter_In. split; [apply required_fields_all | exact E]. }
    rewrite H in I. destruct I.
  - intros H. unfold required_fields, at_placeholder. cbn [filter].
    now rewrite !chosen_eqb.
Qed.

(** The error list is the list of messages of the six validated fields that
    are still at their placeholder, in the order current job, target job,
    education, portfolio strength, language proficiency, remote preference:
    each such field once, no other message; it is empty exactly when all
    six are chosen. *)
Theorem validate_errors_exact (p : Profile) :
  fst (validate p) =
    map field_message (filter (at_placeholder p) required_fields)
  /\ NoDup (fst (validate p))
  /\ (forall f, In (field_message f) (fst (validate p)) <->
                field_value f p = placeholder f)
  /\ (List.length (fst (validate p)) <= 6)%nat
  /\ (fst (validate p) = [] <-> all_chosen p).
Proof.
  split; [apply validate_errors_filter|].
  split; [|split; [|split; [|apply validate_accepts_iff]]].
  - rewrite validate_errors_filter.
    apply Finite.Injective_map_NoDup.
    + intros f g. apply field_message_inj.
    + apply NoDup_filter, required_fields_NoDup.
  - intros f. rewrite validate_errors_filter, in_map_iff. split.
    + intros (g & E & I). apply field_message_inj in E. subst g.
      apply filter_In in I. destruct I as [_ I].
      now apply String.eqb_eq in I.
    + intros E. exists f. split; [reflexivity|].
      apply filter_In. split; [apply required_fields_all|].
      unfold at_placeholder. rewrite E. apply String.eqb_refl.
  - rewrite validate_errors_filter, length_map.
    etransitivity; [apply filter_length_le | simpl; lia].
Qed.

Lemma validate_profile (p : Profile) :
  snd (validate p) =
  if certifications p == "Select..." then with_certifications p "None" else p.
Proof. reflexivity. Qed.

(** Validation changes nothing in the profile but a certifications value
    left at "Select...", which becomes "None"; validating the resulting
    profile again gives the same errors and the same profile. *)
Theorem validate_idempotent (p : Profile) :
  (certifications p <> "Select..." -> snd (validate p) = p)
  /\ snd (validate p) =
     with_certifications p (accepted_certifications (certifications p))
  /\ certifications (snd (validate p)) <> "Select..."
  /\ validate (snd (validate p)) = validate p.
Proof.
  destruct p as [cj tj ed ps ce lp rp ye pc cr sk].
  unfold validate, accepted_certifications. cbn [snd certifications].
  destruct (ce == "Select...") eqn:E.
  - apply String.eqb_eq in E. subst ce. repeat split.
    + congruence.
    + discriminate.
  - repeat split.
    + now apply String.eqb_neq.
    + cbn. now rewrite E.
Qed.

Lemma validate_idempotent_witness :
  snd (validate chosen_profile) = chosen_profile.
Proof.
  apply (proj1 (validate_idempotent chosen_profile)). discriminate.
Defined.

Lemma script_not_analysed (a : Assets) (p : Profile) (r : Report) :
  fst (validate p) <> [] -> script a true p <> Ok (Analysed r).
Proof. intros H. rewrite script_rejects by exact H. discriminate. Qed.

(** Below the status panel the script does not raise for a non-negative
    number of years. *)
Lemma script_below_panel (a : Assets) (analyze : bool) (p : Profile) :
  0 <= years_exp p ->
  (exists o, script a analyze p = Ok o)
  /\ (script a analyze p = Ok Idle <-> analyze = false)
  /\ ((exists r, script a analyze p = Ok (Analysed r)) <->
      analyze = true /\ all_chosen p)
  /\ (analyze = true -> ~ all_chosen p ->
      script a analyze p = Ok (Rejected (fst (validate p)))).
Proof.
  intros Hy. destruct analyze.
  - destruct (validate_target_job p) as [_ Y].
    destruct (fst (validate p)) as [|e errs] eqn:E.
    + assert (Hall : all_chosen p) by now apply validate_accepts_iff.
      assert (S : exists r, script a true p = Ok (Analysed r)).
      { rewrite script_accepts by exact E.
        destruct (analysis_returns a (snd (validate p))) as [r ->];
          [now rewrite Y | simpl; eauto]. }
      destruct S as [r S]. rewrite S.
      split; [eauto|]. split; [split; discriminate|].
      split; [split; eauto|].
      intros _ N. contradiction.
    + assert (N : fst (validate p) <> []) by (rewrite E; discriminate).
      assert (Hno : ~ all_chosen p).
      { intros Hall. apply validate_accepts_iff in Hall. congruence. }
      pose proof (script_rejects a p N) as S. rewrite E in S.
      rewrite S.
      split; [eauto|]. split; [split; discriminate|].
      split; [|reflexivity].
      split; [intros [r Hr]; discriminate | intros [_ Hall]; contradiction].
  - cbn.
    split; [eauto|]. split; [split; reflexivity|].
    split; [|discriminate].
    split; [intros [r Hr]; discriminate | intros [H _]; discriminate].
Qed.

Lemma truth_test_returns_iff (x : option PyObject) :
  (exists r, truth_test x = Ok r) <->
  (forall o, x = Some o -> truth_test_returns o).
Proof.
  unfold truth_test, truth_test_returns. destruct x as [o|]; split.
  - intros [r H] o' [= <-].
    destruct (py_bool o) as [b|e]; [eauto | discriminate].
  - intros H. destruct (H o eq_refl) as [b ->]. cbn [bind]. eauto.
  - intros _ o [=].
  - intros _. eauto.
Qed.

Lemma status_panel_returns_iff (l : Loaded) :
  (exists a, status_panel l = Ok a) <-> panel_testable l.
Proof.
  unfold panel_testable. rewrite <- !truth_test_returns_iff.
  unfold status_panel. split.
  - intros [a H].
    destruct (truth_test (loaded_salary_model l)); [|discriminate].
    destruct (truth_test (loaded_career_model l)); [|discriminate].
    destruct (truth_test (loaded_scaler l)); [|discriminate].
    repeat split; eexists; reflexivity.
  - intros ([sm ->] & [cm ->] & [sc ->]). cbn [bind]. eauto.
Qed.

(** A run below the loading block (lines 211-564) raises exactly when the
    truth test of the salary model, the career model or the scaler raises
    in the status panel, and it does so whether or not the button is
    pressed.  Otherwise, for a non-negative number of years, it never
    raises: it stops idle when the button was not pressed, stops with the
    error list when a validated field is missing, and produces the
    analysis exactly when the button was pressed and all six validated
    fields are chosen. *)
Theorem script_outcome (l : Loaded) (analyze : bool) (p : Profile) :
  0 <= years_exp p ->
  ((exists a, status_panel l = Ok a) <-> panel_testable l)
  /\ (forall e, status_panel l = Raise e -> run_loaded l analyze p = Raise e)
  /\ (raises (run_loaded l analyze p) <-> ~ panel_testable l)
  /\ (panel_testable l ->
      (exists o, run_loaded l analyze p = Ok o)
      /\ (run_loaded l analyze p = Ok Idle <-> analyze = false)
      /\ ((exists r, run_loaded l analyze p = Ok (Analysed r)) <->
          analyze = true /\ all_chosen p)
      /\ (analyze = true -> ~ all_chosen p ->
          run_loaded l analyze p = Ok (Rejected (fst (validate p))))).
Proof.
  intros Hy.
  split; [apply status_panel_returns_iff|].
  split; [intros e H; unfold run_loaded; now rewrite H|].
  split.
  - rewrite <- status_panel_returns_iff. unfold run_loaded.
    destruct (status_panel l) as [a|e]; cbn [bind]; split.
    + intros [e R].
      destruct (script_below_panel a analyze p Hy) as ([o O] & _).
      congruence.
    + intros N. exfalso. apply N. eauto.
    + intros _ [a H]. discriminate.
    + intros _. exists e. reflexivity.
  - intros T. apply status_panel_returns_iff in T. destruct T as [a T].
    unfold run_loaded. rewrite T. cbn [bind].
    apply (script_below_panel a analyze p Hy).
Qed.

Lemma script_outcome_witness :
  exists r, run_loaded nothing_loaded true chosen_profile = Ok (Analysed r).
Proof.
  assert (Hy : 0 <= years_exp chosen_profile) by (simpl; lia).
  destruct (script_outcome nothing_loaded true chosen_profile Hy)
    as (_ & _ & _ & H).
  destruct H as (_ & _ & H & _).
  - repeat split; intros o [=].
  - apply H. split; [reflexivity|]. intros f. destruct f; discriminate.
Defined.

(** With a salary model file that holds an array the run stops in the
    status panel, before the button is looked at. *)
Example array_model_stops_run :
  run_loaded array_model_loaded false chosen_profile = Raise ValueError.
Proof. reflexivity. Qed.

(** A profile from the sidebar that passes validation never reaches a
    fallback: its target role has its own base salary, skill gaps, courses
    and roadmap, and its portfolio, language and remote values are keys of
    the ordinal mappings. *)
Theorem sidebar_profile_needs_no_default (p : Profile) :
  from_sidebar p -> all_chosen p ->
  In (target_job p) role_options
  /\ get BASE_BY_ROLE_INR (target_job p) <> None
  /\ get ROLE_SKILL_GAPS (target_job p) <> None
  /\ get ROLE_COURSES (target_job p) <> None
  /\ get ROLE_ROADMAP (target_job p) <> None
  /\ get portfolio_mapping (portfolio_strength p) <> None
  /\ get language_mapping (language_proficiency p) <> None
  /\ get remote_mapping (remote_pref p) <> None.
Proof.
  intros (_ & Ht & _ & Hp & _ & Hl & Hr & _) Hall.
  pose proof (Hall ReqTargetJob) as Ct.
  pose proof (Hall ReqPortfolio) as Cp.
  pose proof (Hall ReqLanguage) as Cl.
  pose proof (Hall ReqRemote) as Cr.
  cbn [field_value placeholder] in *.
  assert (Ht' : In (target_job p) role_options).
  { destruct Ht as [E|Ht]; [congruence | exact Ht]. }
  split; [exact Ht'|].
  unfold role_options in Ht'. simpl in Ht'.
  repeat split.
  - repeat (destruct Ht' as [<-|Ht']; [discriminate|]). destruct Ht'.
  - repeat (destruct Ht' as [<-|Ht']; [discriminate|]). destruct Ht'.
  - repeat (destruct Ht' as [<-|Ht']; [discriminate|]). destruct Ht'.
  - repeat (destruct Ht' as [<-|Ht']; [discriminate|]). destruct Ht'.
  - destruct Hp as [E|Hp]; [congruence|].
    repeat (destruct Hp as [<-|Hp]; [discriminate|]). destruct Hp.
  - destruct Hl as [E|Hl]; [congruence|].
    repeat (destruct Hl as [<-|Hl]; [discriminate|]). destruct Hl.
  - destruct Hr as [E|Hr]; [congruence|].
    repeat (destruct Hr as [<-|Hr]; [discriminate|]). destruct Hr.
Qed.

Lemma sidebar_profile_needs_no_default_witness :
  In (target_job chosen_profile) role_options.
Proof.
  refine (proj1 (sidebar_profile_needs_no_default chosen_profile _ _)).
  - unfold from_sidebar. simpl. repeat split; try lia; tauto.
  - intros f. destruct f; discriminate.
Defined.

(** *** Heuristic salary: range, accuracy, growth *)

Lemma exact_capped (b y : Z) :
  heuristic_exact b y = heuristic_exact b (Z.min y 10).
Proof.
  unfold heuristic_exact. now rewrite Z.min_l with (n := Z.min y 10) by lia.
Qed.

Lemma range_table_check :
  forallb (fun b =>
    (300000 <=? b) && (b <=? 1000000) &&
    (heuristic_formula b 0 =? b) &&
    forallb (fun k =>
      (b <=? heuristic_formula b k) &&
      (10 * heuristic_formula b k <=? 16 * b) &&
      (heuristic_exact b k - 1 <=? heuristic_formula b k) &&
      (heuristic_formula b k <=? heuristic_exact b k))
      capped_years) base_values = true.
Proof. vm_compute. reflexivity. Qed.

Lemma strict_table_check :
  forallb (fun b =>
    forallb (fun k1 =>
      forallb (fun k2 =>
        implb (k1 <? k2) (heuristic_formula b k1 <? heuristic_formula b k2))
        capped_years) capped_years) base_values = true.
Proof. vm_compute. reflexivity. Qed.

Lemma formula_range (b y : Z) :
  In b base_values -> 0 <= y ->
  300000 <= b <= 1000000 /\
  heuristic_formula b 0 = b /\
  b <= heuristic_formula b y /\
  10 * heuristic_formula b y <= 16 * b /\
  heuristic_exact b y - 1 <= heuristic_formula b y <= heuristic_exact b y.
Proof.
  intros Hb Hy.
  rewrite (formula_capped b y), (exact_capped b y).
  pose proof range_table_check as T.
  rewrite forallb_forall in T. specialize (T b Hb).
  rewrite !andb_true_iff in T. destruct T as [[[B1 B2] B0] T].
  rewrite forallb_forall in T. specialize (T _ (min_capped y Hy)).
  rewrite !andb_true_iff in T. destruct T as [[[T1 T2] T3] T4].
  apply Z.leb_le in B1, B2, T1, T2, T3, T4. apply Z.eqb_eq in B0.
  repeat split; assumption.
Qed.

(** For every role and every number of years [y >= 0] the heuristic salary
    lies between the role's base and 1.6 times the base, hence between
    300000 and 1600000; with no experience it is the base itself. *)
Theorem heuristic_salary_range (role : string) (y : Z) :
  0 <= y ->
  exists n,
    heuristic_salary role y = Ok n /\
    base_salary role <= n /\
    10 * n <= 16 * base_salary role /\
    300000 <= n <= 1600000 /\
    heuristic_salary role 0 = Ok (base_salary role).
Proof.
  intros Hy.
  destruct (formula_range (base_salary role) y (base_in_values role) Hy)
    as ([B1 B2] & B0 & L & U & _).
  exists (heuristic_formula (base_salary role) y).
  split; [now apply heuristic_salary_formula|].
  split; [exact L|]. split; [exact U|]. split; [lia|].
  rewrite heuristic_salary_formula by lia. now rewrite B0.
Qed.

Lemma heuristic_salary_range_witness :
  exists n,
    heuristic_salary "Frontend Developer" 4 = Ok n /\
    base_salary "Frontend Developer" <= n /\
    10 * n <= 16 * base_salary "Frontend Developer" /\
    300000 <= n <= 1600000 /\
    heuristic_salary "Frontend Developer" 0 =
    Ok (base_salary "Frontend Developer").
Proof. apply (heuristic_salary_range "Frontend Developer" 4). lia. Defined.

(** The float arithmetic of the heuristic never exceeds the exact value
    [floor(base * (100 + 6 * min(y, 10)) / 100)] and falls short of it by
    at most 1. *)
Theorem heuristic_salary_accuracy (role : string) (y : Z) :
  0 <= y ->
  exists n,
    heuristic_salary role y = Ok n /\
    heuristic_exact (base_salary role) y - 1 <= n <=
    heuristic_exact (base_salary role) y.
Proof.
  intros Hy.
  destruct (formula_range (base_salary role) y (base_in_values role) Hy)
    as (_ & _ & _ & _ & A).
  exists (heuristic_formula (base_salary role) y).
  split; [now apply heuristic_salary_formula | exact A].
Qed.

Lemma heuristic_salary_accuracy_witness :
  exists n,
    heuristic_salary "Product Manager" 6 = Ok n /\
    heuristic_exact (base_salary "Product Manager") 6 - 1 <= n <=
    heuristic_exact (base_salary "Product Manager") 6.
Proof. apply (heuristic_salary_accuracy "Product Manager" 6). lia. Defined.

(** Up to ten years every additional year strictly raises the heuristic
    salary. *)
Theorem heuristic_salary_strict (role : string) (y1 y2 : Z) :
  0 <= y1 < y2 -> y2 <= 10 ->
  exists n1 n2,
    heuristic_salary role y1 = Ok n1 /\
    heuristic_salary role y2 = Ok n2 /\
    n1 < n2.
Proof.
  intros [H1 H2] H3.
  exists (heuristic_formula (base_salary role) y1),
         (heuristic_formula (base_salary role) y2).
  split; [apply heuristic_salary_formula; lia|].
  split; [apply heuristic_salary_formula; lia|].
  rewrite (formula_capped _ y1), (formula_capped _ y2).
  pose proof strict_table_check as T.
  rewrite forallb_forall in T. specialize (T _ (base_in_values role)).
  rewrite forallb_forall in T. specialize (T _ (min_capped y1 H1)).
  rewrite forallb_forall in T.
  assert (H0 : 0 <= y2) by lia. specialize (T _ (min_capped y2 H0)).
  assert (L : (Z.min y1 10 <? Z.min y2 10) = true) by (apply Z.ltb_lt; lia).
  rewrite L in T. simpl in T. apply Z.ltb_lt in T.
  rewrite <- base_salary_default. exact T.
Qed.

Lemma heuristic_salary_strict_witness :
  exists n1 n2,
    heuristic_salary "Marketing Analyst" 9 = Ok n1 /\
    heuristic_salary "Marketing Analyst" 10 = Ok n2 /\
    n1 < n2.
Proof. apply (heuristic_salary_strict "Marketing Analyst" 9 10); lia. Defined.

(** *** Salary resolution: the model path *)

Lemma usd_to_inr_not_finite (x : float) :
  finite_float x = false -> raises (usd_to_inr x).
Proof.
  destruct x as [s|s| |s m e]; simpl; try discriminate; intros _.
  - exists OverflowError. reflexivity.
  - exists ValueError. reflexivity.
Qed.

Lemma usd_to_inr_overflow (x : float) :
  finite_float (fmul x lit_82_0) = false -> raises (usd_to_inr x).
Proof.
  unfold usd_to_inr. destruct (fmul x lit_82_0); simpl; try discriminate;
    intros _; eexists; reflexivity.
Qed.

(** A salary model that answers NaN or an infinity on the row it is
    given, or a number whose product with 82.0 overflows, does not produce
    a model-derived salary: [int(.)] raises inside the [try] and the
    heuristic salary is shown. *)
Theorem nonfinite_prediction_falls_back (a : Assets) (p : Profile) (m : Obj)
  (feats : list string) (X : dict pyval) (df : frame) (x : float) :
  0 <= years_exp p ->
  salary_model a = Some m ->
  feat_salary a = Some feats ->
  build_salary_row a p feats = Ok X ->
  best_effort_scale (scaler a) (DataFrame X) = Ok df ->
  predict_float m df = Ok x ->
  finite_float x = false \/ finite_float (fmul x lit_82_0) = false ->
  resolve_salary a p =
  Ok (HeuristicSalary
        (heuristic_formula (base_salary (target_job p)) (years_exp p))).
Proof.
  intros Hy Hm Hf Hb Hs Hp Hx.
  apply (resolve_salary_body_raises a p Hy).
  unfold model_salary. rewrite Hf, Hm. cbn [schema_items bind].
  rewrite Hb. cbn [bind]. rewrite Hs. cbn [bind]. rewrite Hp. cbn [bind].
  destruct Hx as [F|F].
  - now apply usd_to_inr_not_finite.
  - now apply usd_to_inr_overflow.
Qed.

Lemma nonfinite_prediction_falls_back_witness :
  resolve_salary assets_nan_at_three chosen_profile =
  Ok (HeuristicSalary
        (heuristic_formula (base_salary "Data Scientist") 3)).
Proof.
  refine (nonfinite_prediction_falls_back assets_nan_at_three chosen_profile
            nan_at_three_regressor ["years_of_experience"] _ _ S754_nan
            _ eq_refl eq_refl eq_refl eq_refl eq_refl _).
  - simpl. lia.
  - now left.
Defined.

(** With a salary model, a schema and a scaler that all work, the salary is
    model-derived: the row is built, scaled, predicted on, and the
    prediction converted; the target role's base salary plays no part. *)
Theorem model_salary_on_scaled_row (a : Assets) (p : Profile) (m s : Obj)
  (feats : list string) (X : dict pyval) (df : frame) (usd : float) (n : Z) :
  salary_model a = Some m -> truthy m = true ->
  feat_salary a = Some feats -> feats <> [] ->
  scaler a = Some s -> truthy s = true ->
  build_salary_row a p feats = Ok X ->
  scale s (DataFrame X) = Ok df ->
  predict_float m df = Ok usd ->
  usd_to_inr usd = Ok n ->
  resolve_salary a p = Ok (ModelDerivedSalary n).
Proof.
  intros Hm Tm Hf Hne Hs Ts Hb Hsc Hp Hn.
  assert (M : model_salary a p = Ok n).
  { unfold model_salary. rewrite Hf, Hm, Hs. cbn [schema_items bind].
    rewrite Hb. cbn [bind]. unfold best_effort_scale. rewrite Ts, Hsc.
    cbn [try_except bind]. rewrite Hp. cbn [bind]. exact Hn. }
  rewrite resolve_salary_cases, M, Hm. simpl. rewrite Tm, Hf.
  destruct feats; [congruence | reflexivity].
Qed.

Lemma model_salary_on_scaled_row_witness :
  resolve_salary assets_working_scaler chosen_profile =
  Ok (ModelDerivedSalary 49200).
Proof.
  refine (model_salary_on_scaled_row assets_working_scaler chosen_profile
            years_regressor doubling_scaler sample_schema _ _ (Z2F 600) 49200
            eq_refl eq_refl eq_refl _ eq_refl eq_refl eq_refl eq_refl
            eq_refl eq_refl).
  discriminate.
Defined.

(** *** Salary feature row: the order of the columns *)

Lemma contains_ext (s1 s2 : list string) (x : string) :
  (forall z, In z s1 <-> In z s2) -> contains s1 x = contains s2 x.
Proof.
  intros H. destruct (contains s1 x) eqn:E1, (contains s2 x) eqn:E2;
    try reflexivity.
  - apply contains_In, H, contains_In in E1. congruence.
  - apply contains_In, H, contains_In in E2. congruence.
Qed.

Lemma first_occurrences_from_ext (xs : list string) :
  forall s1 s2,
    (forall z, In z s1 <-> In z s2) ->
    first_occurrences_from s1 xs = first_occurrences_from s2 xs.
Proof.
  induction xs as [|x rest IH]; intros s1 s2 H; simpl; [reflexivity|].
  rewrite (contains_ext s1 s2 x H).
  destruct (contains s2 x).
  - now apply IH.
  - f_equal. apply IH. intros z. simpl. rewrite H. tauto.
Qed.

Lemma first_occurrences_from_NoDup (xs : list string) :
  forall seen,
    NoDup xs -> (forall x, In x xs -> ~ In x seen) ->
    first_occurrences_from seen xs = xs.
Proof.
  induction xs as [|x rest IH]; intros seen ND D; simpl; [reflexivity|].
  inversion ND as [|? ? Hn ND']; subst.
  destruct (contains seen x) eqn:E.
  - apply contains_In in E. exfalso. apply (D x); simpl; auto.
  - f_equal. apply IH; [exact ND'|].
    intros y Hy [<-|Hs]; [contradiction | apply (D y); simpl; auto].
Qed.

Lemma salary_row_loop_keys (a : Assets) (p : Profile) (feats : list string) :
  forall X X',
    salary_row_loop a p feats X = Ok X' ->
    keys X' =
    (keys X ++
     first_occurrences_from (keys X)
       (filter (fun f => negb (is_target_column f)) feats))%list.
Proof.
  induction feats as [|feat rest IH]; intros X X' H; simpl in *.
  - inversion H. now rewrite app_nil_r.
  - destruct (is_target_column feat); simpl; [now apply IH|].
    apply bind_Ok_inv in H. destruct H as (w & _ & H).
    apply IH in H. rewrite H, keys_setitem.
    destruct (contains (keys X) feat) eqn:E; [reflexivity|].
    rewrite <- app_assoc. simpl. do 2 f_equal.
    apply first_occurrences_from_ext.
    intros z. rewrite in_app_iff. simpl. tauto.
Qed.

(** The columns of a salary row that is built come in schema order: the
    schema with the target column dropped and every repeated name kept at
    its first place.  For a schema without repetition and without the
    target column the columns are the schema itself.  The row is built
    whenever the truth test of each consulted encoder returns. *)
Theorem salary_row_column_order (a : Assets) (p : Profile)
  (feats : list string) (X : dict pyval) :
  build_salary_row a p feats = Ok X ->
  keys X = salary_columns feats /\
  map fst (DataFrame X) = salary_columns feats /\
  (NoDup feats -> ~ In "estimated_salary_usd" feats -> keys X = feats) /\
  (forall feats', consulted_testable a feats' ->
                  exists X', build_salary_row a p feats' = Ok X' /\
                             keys X' = salary_columns feats').
Proof.
  intros E.
  pose proof (salary_row_loop_keys a p feats [] X E) as K. simpl in K.
  split; [exact K|]. split; [exact K|]. split.
  - intros ND Hn. rewrite K.
    assert (F : filter (fun f => negb (is_target_column f)) feats = feats).
    { apply forallb_filter_id. apply forallb_forall. intros x Hx.
      apply negb_true_iff, target_column_iff. congruence. }
    rewrite F. apply first_occurrences_from_NoDup; [exact ND | auto].
  - intros feats' T.
    destruct (salary_row_loop_returns a p feats' T []) as [X' E'].
    exists X'. split; [exact E'|].
    apply (salary_row_loop_keys a p feats' [] X' E').
Qed.

Lemma salary_row_column_order_witness :
  keys [("years_of_experience", PyInt 3); ("education_level", PyInt 0);
        ("certifications", PyInt 1)] =
  ["years_of_experience"; "education_level"; "certifications"].
Proof.
  refine (proj1 (proj2 (proj2
            (salary_row_column_order no_assets chosen_profile
               ["years_of_experience"; "education_level"; "certifications"]
               [("years_of_experience", PyInt 3); ("education_level", PyInt 0);
                ("certifications", PyInt 1)] eq_refl))) _ _).
  - repeat constructor; simpl; intuition discriminate.
  - simpl. intuition discriminate.
Defined.

(** *** Career row *)

Lemma career_value_ok (a : Assets) (p : Profile) (feat : string) :
  current_job_encoder_fails a p = false \/ feat <> "current_job_title" ->
  career_feature_value a p feat = Ok (PyInt (career_spec a p feat)).
Proof.
  intros H. unfold career_feature_value, career_spec.
  destruct (feat == "target_job_title"); [reflexivity|].
  destruct (feat == "current_job_title") eqn:E;
    [|now destruct (feat == "years_of_experience")].
  apply String.eqb_eq in E. destruct H as [H|H]; [|contradiction].
  unfold current_job_encoder_fails in H. unfold encoder_code.
  destruct (get (encoders a) "current_job_title") as [enc|]; [|reflexivity].
  destruct (py_bool enc) as [b|e]; [|discriminate]. cbn [bind].
  destruct b; [|reflexivity].
  destruct (py_transform_int enc (current_job p)); [reflexivity | discriminate].
Qed.

Lemma career_value_raises (a : Assets) (p : Profile) :
  current_job_encoder_fails a p = true ->
  raises (career_feature_value a p "current_job_title").
Proof.
  intros H. unfold career_feature_value. cbn.
  unfold current_job_encoder_fails in H.
  destruct (get (encoders a) "current_job_title") as [enc|]; [|discriminate].
  destruct (py_bool enc) as [b|e]; [|exists e; reflexivity].
  destruct b; [|discriminate]. cbn [bind].
  destruct (py_transform_int enc (current_job p)) as [n|e]; [discriminate|].
  exists e. reflexivity.
Qed.

Lemma career_row_loop_raises (a : Assets) (p : Profile)
  (feats : list string) :
  forall X,
    In "current_job_title" feats ->
    current_job_encoder_fails a p = true ->
    raises (career_row_loop a p feats X).
Proof.
  induction feats as [|feat rest IH]; intros X Hin Hf; [destruct Hin|].
  simpl. destruct (String.string_dec feat "current_job_title") as [->|Hne].
  - destruct (career_value_raises a p Hf) as [e ->]. exists e. reflexivity.
  - rewrite career_value_ok by now right. cbn [bind].
    apply IH; [|exact Hf]. destruct Hin as [E|Hin]; [congruence | exact Hin].
Qed.

Lemma career_row_loop_returns (a : Assets) (p : Profile)
  (feats : list string) :
  forall X,
    ~ (In "current_job_title" feats /\ current_job_encoder_fails a p = true) ->
    (forall k, In k (keys X) -> get X k = Some (PyInt (career_spec a p k))) ->
    exists X',
      career_row_loop a p feats X = Ok X' /\
      keys X' = (keys X ++ first_occurrences_from (keys X) feats)%list /\
      (forall k, In k (keys X') -> get X' k = Some (PyInt (career_spec a p k))).
Proof.
  induction feats as [|feat rest IH]; intros X Hno HV; simpl.
  - exists X. rewrite app_nil_r. auto.
  - assert (V : career_feature_value a p feat =
                Ok (PyInt (career_spec a p feat))).
    { apply career_value_ok.
      destruct (current_job_encoder_fails a p); [right | now left].
      intros ->. apply Hno. simpl. auto. }
    rewrite V. cbn [bind].
    destruct (IH (setitem X feat (PyInt (career_spec a p feat))))
      as (X' & E & K & G).
    + intros [Hin Hf]. apply Hno. simpl. auto.
    + intros k Hk. rewrite get_setitem.
      destruct (k == feat) eqn:Ek.
      * apply String.eqb_eq in Ek. now subst.
      * apply In_keys_setitem in Hk. destruct Hk as [->|Hk]; auto.
        now rewrite String.eqb_refl in Ek.
    + exists X'. split; [exact E|]. split; [|exact G].
      rewrite K, keys_setitem.
      destruct (contains (keys X) feat) eqn:Ec; [reflexivity|].
      rewrite <- app_assoc. simpl. do 2 f_equal.
      apply first_occurrences_from_ext.
      intros z. rewrite in_app_iff. simpl. tauto.
Qed.

(** When the career row is built, its columns are the career schema in
    order (repeated names at their first place; no column is skipped), with
    [target_job_title] always 0, [current_job_title] the encoder's code (0
    without a usable encoder), [years_of_experience] the profile's years,
    and every other name 0: the user's target role, education, portfolio
    and the other inputs do not enter the row. *)
Theorem career_row_contents (a : Assets) (p : Profile) (feats : list string)
  (Xin : dict pyval) :
  career_row_loop a p feats [] = Ok Xin ->
  keys Xin = first_occurrences feats /\
  (forall k, In k feats ->
             get Xin k = Some (PyInt (career_spec a p k))) /\
  (In "target_job_title" feats ->
   get Xin "target_job_title" = Some (PyInt 0)).
Proof.
  intros H.
  destruct (career_row_loop_returns a p feats []) as (X' & E & K & G).
  - intros [Hin Hf].
    destruct (career_row_loop_raises a p feats [] Hin Hf) as [e R].
    congruence.
  - intros k [].
  - rewrite E in H. inversion H. subst X'. simpl in K.
    assert (M : forall k, In k feats -> In k (keys Xin)).
    { intros k Hk. destruct (get Xin k) eqn:Eg.
      - apply Decidable.not_not.
        + destruct (in_dec String.string_dec k (keys Xin)); [left|right]; auto.
        + intros N. apply get_None_keys in N. congruence.
      - destruct (career_row_loop_get a p feats [] Xin k E Hk) as (v & _ & Hv).
        congruence. }
    split; [exact K|]. split.
    + intros k Hk. apply G, M, Hk.
    + intros Hk. now rewrite (G _ (M _ Hk)).
Qed.

Lemma career_row_contents_witness :
  get [("target_job_title", PyInt 0); ("years_of_experience", PyInt 3)]
      "target_job_title" = Some (PyInt 0).
Proof.
  refine (proj2 (proj2 (career_row_contents no_assets chosen_profile
                          ["target_job_title"; "years_of_experience"]
                          [("target_job_title", PyInt 0);
                           ("years_of_experience", PyInt 3)] eq_refl)) _).
  simpl. auto.
Defined.

(** The career row, unlike the salary row, does not guard the encoder's
    transform: it raises exactly when the schema names [current_job_title]
    and either the truth test of the current-job encoder raises or the
    encoder is truthy and its transform raises on the profile's job; the
    preview then is "no suggestion" although model and schema are there.
    For a truthy encoder whose transform raises, the salary row binds 0
    where the career row raises. *)
Theorem career_row_encoder_failure (a : Assets) (p : Profile)
  (feats : list string) :
  (raises (career_row_loop a p feats []) <->
   In "current_job_title" feats /\ current_job_encoder_fails a p = true)
  /\ (is_true (career_model a) = true ->
      feat_career a = Some feats ->
      In "current_job_title" feats ->
      current_job_encoder_fails a p = true ->
      career_preview a p = Ok NoSuggestion)
  /\ (forall enc,
        get (encoders a) "current_job_title" = Some enc ->
        py_bool enc = Ok true ->
        raises (py_transform_int enc (current_job p)) ->
        salary_feature_value a p "current_job_title" = Ok (PyInt 0) /\
        raises (career_feature_value a p "current_job_title")).
Proof.
  split; [split|split].
  - intros [e R].
    destruct (in_dec String.string_dec "current_job_title" feats) as [I|I];
      destruct (current_job_encoder_fails a p) eqn:F; auto;
      destruct (career_row_loop_returns a p feats []) as (X' & E & _);
      try (intros k []); try congruence; intros [H1 H2]; congruence.
  - intros [Hin Hf]. now apply career_row_loop_raises.
  - intros Hm Hs Hin Hf. apply career_preview_failure.
    + rewrite Hm, Hs. destruct feats; [destruct Hin | reflexivity].
    + unfold model_preview. rewrite Hs. cbn [schema_items bind].
      destruct (career_row_loop_raises a p feats [] Hin Hf) as [e ->].
      exists e. reflexivity.
  - intros enc He Te [e Hr]. split.
    + unfold salary_feature_value. cbn. unfold encoded.
      now rewrite He, Te, Hr.
    + apply career_value_raises. unfold current_job_encoder_fails.
      now rewrite He, Te, Hr.
Qed.

Lemma career_row_encoder_failure_witness :
  career_preview assets_strict_encoder chosen_profile = Ok NoSuggestion.
Proof.
  destruct (career_row_encoder_failure assets_strict_encoder chosen_profile
              ["current_job_title"; "years_of_experience"]) as (_ & H & _).
  apply H; try reflexivity. simpl. auto.
Defined.

Lemma career_row_loop_same (a : Assets) (p q : Profile) (feats : list string) :
  current_job p = current_job q -> years_exp p = years_exp q ->
  forall X, career_row_loop a p feats X = career_row_loop a q feats X.
Proof.
  intros Hc Hy.
  assert (V : forall feat,
             career_feature_value a p feat = career_feature_value a q feat).
  { intros feat. unfold career_feature_value. now rewrite Hc, Hy. }
  induction feats as [|feat rest IH]; intros X; simpl; [reflexivity|].
  rewrite V. destruct (career_feature_value a q feat); simpl; auto.
Qed.

(** The model's suggestion depends on the profile only through the current
    job and the years of experience: two profiles that agree on these get
    the same preview, whatever their target role and other fields. *)
Theorem career_preview_inputs (a : Assets) (p q : Profile) :
  current_job p = current_job q -> years_exp p = years_exp q ->
  career_preview a p = career_preview a q.
Proof.
  intros Hc Hy. unfold career_preview, model_preview.
  destruct (schema_items (feat_career a)) as [feats|e]; [|reflexivity].
  cbn [bind]. now rewrite (career_row_loop_same a p q feats Hc Hy).
Qed.

Lemma career_preview_inputs_witness :
  career_preview assets_failing_scaler chosen_profile =
  career_preview assets_failing_scaler
    (with_certifications chosen_profile "None").
Proof.
  apply (career_preview_inputs assets_failing_scaler chosen_profile
           (with_certifications chosen_profile "None")); reflexivity.
Defined.

(** *** Course table fill and content lookups *)

Lemma fill_courses_get (rc : dict (option (list Course))) (r k : string) :
  get (fill_courses rc r) k =
  match get rc k with
  | Some v => Some v
  | None => if k == r then Some (get_default rc "Data Scientist" None)
            else None
  end.
Proof.
  unfold fill_courses, setdefault.
  destruct (get rc r) as [v|] eqn:Er.
  - destruct (get rc k) eqn:Ek; [reflexivity|].
    destruct (k == r) eqn:E; [|reflexivity].
    apply String.eqb_eq in E. subst. congruence.
  - rewrite get_setitem. unfold get_default at 1. rewrite Er.
    destruct (k == r) eqn:E.
    + apply String.eqb_eq in E. subst. now rewrite Er.
    + now destruct (get rc k).
Qed.

Lemma fill_courses_default (rc : dict (option (list Course))) (r : string) :
  get_default (fill_courses rc r) "Data Scientist" None =
  get_default rc "Data Scientist" None.
Proof.
  unfold get_default at 1. rewrite fill_courses_get.
  unfold get_default.
  destruct (get rc "Data Scientist") as [v|]; [reflexivity|].
  now destruct ("Data Scientist" == r).
Qed.

Lemma fill_all_get (roles : list string) :
  forall (rc : dict (option (list Course))) (k : string),
    get (fold_left fill_courses roles rc) k =
    match get rc k with
    | Some v => Some v
    | None => if contains roles k
              then Some (get_default rc "Data Scientist" None)
              else None
    end.
Proof.
  induction roles as [|r rest IH]; intros rc k; simpl.
  - now destruct (get rc k).
  - rewrite IH, fill_courses_get, fill_courses_default.
    destruct (get rc k); [reflexivity|].
    destruct (k == r); [reflexivity|].
    reflexivity.
Qed.

(** The load-time fill, for any course table and any list of roles: an
    entry the table already has is never overwritten, every listed role
    without an entry gets the table's "Data Scientist" course list, and no
    other key appears. *)
Theorem fill_courses_preserves_and_covers
  (rc : dict (option (list Course))) (roles : list string) (k : string) :
  let filled := fold_left fill_courses roles rc in
  (forall v, get rc k = Some v -> get filled k = Some v)
  /\ (get rc k = None -> In k roles ->
      get filled k = Some (get_default rc "Data Scientist" None))
  /\ (get rc k = None -> ~ In k roles -> get filled k = None).
Proof.
  cbv zeta. rewrite fill_all_get. split; [|split].
  - now intros v ->.
  - intros -> Hin. apply contains_In in Hin. now rewrite Hin.
  - intros -> Hn. destruct (contains roles k) eqn:E; [|reflexivity].
    apply contains_In in E. contradiction.
Qed.

Lemma fill_courses_preserves_and_covers_witness :
  get ROLE_COURSES "UI/UX Designer" = get ROLE_COURSES_literal "UI/UX Designer"
  /\ get ROLE_COURSES "Marketing Analyst" =
     Some (get_default ROLE_COURSES_literal "Data Scientist" None).
Proof.
  split.
  - destruct (fill_courses_preserves_and_covers ROLE_COURSES_literal
                (keys ROLE_SKILL_GAPS) "UI/UX Designer") as (H & _).
    unfold ROLE_COURSES. erewrite H; reflexivity.
  - destruct (fill_courses_preserves_and_covers ROLE_COURSES_literal
                (keys ROLE_SKILL_GAPS) "Marketing Analyst") as (_ & H & _).
    apply H; [reflexivity | simpl; tauto].
Defined.

Ltac content_found :=
  do 4 eexists;
  repeat (split; [reflexivity|]);
  split; [repeat (apply Forall_cons; [cbn; repeat split; discriminate|]);
          apply Forall_nil|];
  repeat (split; [reflexivity|]);
  unfold nonempty_stages; simpl; repeat split; discriminate.

(** For every target job string, listed or not, the three content lookups
    and the roadmap display succeed: five skill gaps, three courses with
    non-empty fields, and five non-empty roadmap stages. *)
Theorem content_for_any_role (role : string) :
  exists g c rm view,
    skill_gaps role = Ok g /\ List.length g = 5%nat /\
    courses role = Ok (Some c) /\ List.length c = 3%nat /\
    Forall (fun x => platform x <> "" /\ course x <> "" /\ duration x <> "") c /\
    roadmap role = Ok rm /\ keys rm = ["Assess"; "Learn"; "Build"; "Profile"; "Apply"] /\
    show_roadmap rm = Ok view /\ nonempty_stages view.
Proof.
  unfold skill_gaps, courses, roadmap, lookup_role, getitem, get_default.
  simpl.
  repeat match goal with
         | |- context [role == ?s] =>
             let E := fresh "E" in
             destruct (role == s) eqn:E;
             [ apply String.eqb_eq in E; subst role; content_found |]
         end.
  content_found.
Qed.

(** *** The program as a whole *)

Lemma app_outcome (fs : FileSystem) (analyze : bool) (p : Profile) :
  exists s1,
    safe_load_pickle fs "scaler.pkl" = Ok s1 /\
    app fs analyze p =
    (b <- py_truth s1 ;; Raise (NameError "safe_load_joblib")).
Proof.
  destruct (load_assets_outcome fs) as (s1 & E & L).
  exists s1. split; [exact E|]. unfold app. rewrite L.
  destruct (py_truth s1); reflexivity.
Qed.

(** Whatever the working directory holds, whether the button is pressed
    and whatever the profile, the program does not get past the loading
    block.  Line 55 tests the truth of the scaler that [safe_load_pickle]
    loaded: when that test raises, its exception ends the program; in
    every other case the program ends with [NameError] on
    [safe_load_joblib].  What [pickle.load] would do with a file is never
    consulted. *)
Theorem app_always_raises (fs : FileSystem) (analyze : bool) (p : Profile) :
  raises (app fs analyze p)
  /\ ((forall o, joblib_load fs "scaler.pkl" = Ok (Some o) ->
                 truth_test_returns o) ->
      app fs analyze p = Raise (NameError "safe_load_joblib"))
  /\ (forall o e,
        joblib_load fs "scaler.pkl" = Ok (Some o) -> py_bool o = Raise e ->
        app fs analyze p = Raise e)
  /\ (forall path,
        call (module_loaders fs) "safe_load_pickle" path =
        try_except (joblib_load fs path) (fun _ => Ok None)).
Proof.
  destruct (app_outcome fs analyze p) as (s1 & E & A).
  unfold safe_load_pickle in E.
  split; [|split; [|split; [|reflexivity]]].
  - rewrite A. destruct (py_truth s1); cbn [bind]; eexists; reflexivity.
  - intros T. rewrite A.
    destruct (joblib_load fs "scaler.pkl") as [[o|]|e']; simpl in E;
      injection E as <-; try reflexivity.
    destruct (T o eq_refl) as [b B]. cbn [py_truth]. now rewrite B.
  - intros o e J B. rewrite A, J in *. simpl in E. injection E as <-.
    cbn [py_truth]. now rewrite B.
Qed.

Lemma app_always_raises_witness :
  app no_files true chosen_profile = Raise (NameError "safe_load_joblib")
  /\ app array_scaler_files true chosen_profile = Raise ValueError.
Proof.
  split.
  - apply (proj1 (proj2 (app_always_raises no_files true chosen_profile))).
    intros o [=].
  - apply (proj1 (proj2 (proj2
             (app_always_raises array_scaler_files true chosen_profile)))
             array_object ValueError); reflexivity.
Defined.

(** *** Skill count *)

Lemma split_comma_nonempty (s : string) : split_comma s <> [].
Proof.
  destruct s as [|c r]; simpl; [discriminate|].
  destruct (is_comma c); [discriminate|].
  destruct (split_comma r); discriminate.
Qed.

Lemma split_comma_join (s1 s2 : string) :
  split_comma (s1 ++ "," ++ s2) = (split_comma s1 ++ split_comma s2)%list.
Proof.
  induction s1 as [|c r IH]; simpl; [reflexivity|].
  destruct (is_comma c); simpl.
  - now rewrite <- IH.
  - simpl in IH. rewrite IH.
    pose proof (split_comma_nonempty r) as N.
    destruct (split_comma r); [congruence | reflexivity].
Qed.

Lemma rstrip_kept (c : ascii) (r : string) :
  is_space c = false -> str_true (rstrip (String c r)) = true.
Proof.
  intros H. simpl. destruct (rstrip r); [now rewrite H | reflexivity].
Qed.

Lemma strip_blank (s : string) : str_true (strip s) = negb (blank s).
Proof.
  unfold strip, blank. induction s as [|c r IH]; simpl; [reflexivity|].
  destruct (is_space c) eqn:E; simpl; [exact IH|].
  change (str_true (rstrip (String c r)) = true). now apply rstrip_kept.
Qed.

Lemma split_comma_length (s : string) :
  List.length (split_comma s) =
  S (List.length (filter is_comma (list_ascii_of_string s))).
Proof.
  induction s as [|c r IH]; simpl; [reflexivity|].
  destruct (is_comma c); simpl.
  - now rewrite IH.
  - pose proof (split_comma_nonempty r) as N.
    destruct (split_comma r); [congruence | exact IH].
Qed.

Lemma no_skill_iff (s : string) :
  filter (fun x => str_true (strip x)) (split_comma s) = [] <->
  Forall (fun c => is_comma c = true \/ is_space c = true)
         (list_ascii_of_string s).
Proof.
  induction s as [|c r IH]; simpl.
  - split; [constructor | reflexivity].
  - destruct (is_comma c) eqn:Ec; simpl.
    + rewrite IH. split.
      * intros H. constructor; auto.
      * intros H. now inversion H.
    + pose proof (split_comma_nonempty r) as N.
      destruct (split_comma r) as [|cur segs]; [congruence|].
      simpl in *. rewrite !strip_blank in *. unfold blank in *. simpl.
      destruct (is_space c) eqn:Es; simpl.
      * destruct (forallb is_space (list_ascii_of_string cur)); simpl in *.
        -- rewrite IH. split.
           ++ intros H. constructor; auto.
           ++ intros H. now inversion H.
        -- split; [discriminate|].
           intros H. inversion H as [|? ? _ H']. apply IH in H'. discriminate.
      * split; [discriminate|].
        intros H. inversion H as [|? ? [A|A] ?]; congruence.
Qed.

(** Joining two skill texts with a comma adds their skill counts, and the
    empty text counts no skill. *)
Theorem skill_count_additive (s1 s2 : string) :
  ascii_text s1 -> ascii_text s2 ->
  skill_count (s1 ++ "," ++ s2) = skill_count s1 + skill_count s2
  /\ skill_count "" = 0.
Proof.
  intros _ _. split; [|reflexivity].
  unfold skill_count.
  rewrite split_comma_join, filter_app, length_app. lia.
Qed.

Lemma skill_count_additive_witness :
  skill_count ("Python, SQL" ++ "," ++ " , Tableau") =
  skill_count "Python, SQL" + skill_count " , Tableau".
Proof.
  refine (proj1 (skill_count_additive "Python, SQL" " , Tableau" _ _));
    repeat (apply Forall_cons; [cbn; lia|]); apply Forall_nil.
Defined.

(** The skill count lies between 0 and one more than the number of commas,
    and it is 0 exactly when the text holds nothing but commas and
    whitespace. *)
Theorem skill_count_bounds (s : string) :
  ascii_text s ->
  0 <= skill_count s <= 1 + comma_count s
  /\ (skill_count s = 0 <->
      Forall (fun c => is_comma c = true \/ is_space c = true)
             (list_ascii_of_string s)).
Proof.
  intros _. split; [split|].
  - unfold skill_count. lia.
  - unfold skill_count, comma_count.
    pose proof (filter_length_le (fun x => str_true (strip x))
                  (split_comma s)) as L.
    rewrite split_comma_length in L. lia.
  - rewrite <- no_skill_iff. unfold skill_count. split.
    + intros H.
      destruct (filter _ (split_comma s)); [reflexivity | simpl in H; lia].
    + now intros ->.
Qed.

Lemma skill_count_bounds_witness :
  0 <= skill_count " , ,, " <= 1 + comma_count " , ,, "
  /\ skill_count " , ,, " = 0.
Proof.
  destruct (skill_count_bounds " , ,, ") as (B & Z0).
  - repeat (apply Forall_cons; [cbn; lia|]). apply Forall_nil.
  - split; [exact B|]. apply Z0.
    repeat (apply Forall_cons;
            [first [left; reflexivity | right; reflexivity]|]).
    apply Forall_nil.
Defined.

(** *** Salary card *)

Lemma group_from_filter (l : list ascii) :
  forall k,
    filter (fun c => negb (is_comma c)) (group_from k l) =
    filter (fun c => negb (is_comma c)) l.
Proof.
  induction l as [|d rest IH]; intros k; simpl; [reflexivity|].
  destruct k as [|[|[|[|k]]]]; simpl; rewrite IH; reflexivity.
Qed.

Lemma remove_commas_group (digits : string) :
  remove_commas (group_thousands digits) = remove_commas digits.
Proof.
  unfold remove_commas, group_thousands.
  rewrite list_ascii_of_string_of_list_ascii, filter_rev, group_from_filter.
  now rewrite filter_rev, rev_involutive.
Qed.

Lemma remove_commas_cons (c : ascii) (s : string) :
  remove_commas (String c s) =
  if is_comma c then remove_commas s else String c (remove_commas s).
Proof. unfold remove_commas. simpl. now destruct (is_comma c). Qed.

Lemma remove_commas_digits (d : Decimal.uint) :
  remove_commas (NilEmpty.string_of_uint d) = NilEmpty.string_of_uint d.
Proof.
  induction d; simpl; [reflexivity | ..];
    rewrite remove_commas_cons; simpl; now rewrite IHd.
Qed.

Lemma remove_commas_numeral (d : Decimal.uint) :
  remove_commas (NilZero.string_of_uint d) = NilZero.string_of_uint d.
Proof.
  destruct d; try apply remove_commas_digits. reflexivity.
Qed.

Lemma remove_commas_format (n : Z) :
  remove_commas (format_commas n) = NilZero.string_of_int (Z.to_int n).
Proof.
  unfold format_commas. destruct (Z.to_int n) as [d|d]; simpl.
  - now rewrite remove_commas_group, remove_commas_numeral.
  - rewrite remove_commas_cons. simpl.
    now rewrite remove_commas_group, remove_commas_numeral.
Qed.

(** The number on the salary card reads back as the salary: with the
    commas taken out, the formatted text is the decimal numeral of the
    amount, for every integer amount, negative ones included. *)
Theorem salary_card_reads_back (n : Z) :
  parse_int (remove_commas (format_commas n)) = Some n
  /\ salary_card n = "₹ " ++ format_commas n ++ " INR per year"
  /\ (0 <= n < 1000 -> format_commas n = NilZero.string_of_int (Z.to_int n)).
Proof.
  split; [|split; [reflexivity|]].
  - unfold parse_int. rewrite remove_commas_format, NilZero.isi.
    + simpl. now rewrite DecimalZ.of_to.
    + destruct n; simpl; try discriminate.
      intros H. inversion H as [E]. now apply Unsigned.to_uint_nonnil in E.
    + destruct n; simpl; try discriminate.
      intros H. inversion H as [E]. now apply Unsigned.to_uint_nonnil in E.
  - intros H.
    assert (C : forallb (fun k => format_commas k
                                  == NilZero.string_of_int (Z.to_int k))
                        (map Z.of_nat (seq 0 1000)) = true)
      by (vm_compute; reflexivity).
    rewrite forallb_forall in C. apply String.eqb_eq, C.
    apply in_map_iff. exists (Z.to_nat n). split; [lia|].
    apply in_seq. lia.
Qed.

Lemma salary_card_reads_back_witness :
  format_commas 999 = NilZero.string_of_int (Z.to_int 999).
Proof.
  apply (proj2 (proj2 (salary_card_reads_back 999))). lia.
Defined.

(** *** Decoding, encoders and the certifications default *)

(** When the career model, the row, the scaling step and the target-job
    encoder all work, the preview shows the role the encoder decodes from
    the predicted label; the recommended role stays the user's target. *)
Theorem career_suggestion_decoded (a : Assets) (p : Profile) (m : Obj)
  (enc : PyObject)
  (feats : list string) (Xin : dict pyval) (df : frame) (l : Label)
  (n : Z) (role : string) :
  career_model a = Some m -> truthy m = true ->
  feat_career a = Some feats -> feats <> [] ->
  career_row_loop a p feats [] = Ok Xin ->
  best_effort_scale (scaler a) (DataFrame Xin) = Ok df ->
  predict_label m df = Ok l ->
  get (encoders a) "target_job_title" = Some enc -> py_bool enc = Ok true ->
  label_int l = Ok n -> py_inverse_transform enc n = Ok role ->
  career_preview a p = Ok (ModelSuggestion role) /\
  recommended_role a p = target_job p.
Proof.
  intros Hm Tm Hf Hne Hr Hs Hp He Te Hl Hi. split; [|reflexivity].
  unfold career_preview, model_preview, decode_label.
  rewrite Hm, Hf. cbn [is_true schema_items bind]. rewrite Tm, Hr.
  cbn [bind]. rewrite Hs. cbn [bind]. rewrite Hp. cbn [bind].
  rewrite He, Te. cbn [bind]. rewrite Hl. cbn [bind]. rewrite Hi.
  destruct feats; [congruence | reflexivity].
Qed.

Lemma career_suggestion_decoded_witness :
  career_preview assets_role_encoder chosen_profile =
  Ok (ModelSuggestion "UI/UX Designer").
Proof.
  refine (proj1 (career_suggestion_decoded assets_role_encoder chosen_profile
                   flat_classifier role_encoder
                   ["current_job_title"; "years_of_experience"]
                   _ _ label_three 3 "UI/UX Designer"
                   eq_refl eq_refl eq_refl _ eq_refl eq_refl eq_refl
                   eq_refl eq_refl eq_refl eq_refl)).
  discriminate.
Defined.

Lemma encoded_agree (a b : Assets) (name value : string) :
  agree_on_used a b -> In name used_encoders ->
  encoded (encoders a) name value = encoded (encoders b) name value.
Proof.
  intros (_ & _ & _ & _ & _ & H) Hin. unfold encoded. now rewrite (H name Hin).
Qed.

Lemma salary_row_loop_agree (a b : Assets) (p : Profile)
  (feats : list string) :
  agree_on_used a b ->
  forall X, salary_row_loop a p feats X = salary_row_loop b p feats X.
Proof.
  intros H.
  assert (V : forall feat,
             salary_feature_value a p feat = salary_feature_value b p feat).
  { intros feat. unfold salary_feature_value.
    rewrite !(encoded_agree a b) by (auto; simpl; tauto). reflexivity. }
  induction feats as [|feat rest IH]; intros X; simpl; [reflexivity|].
  destruct (is_target_column feat); [apply IH|].
  rewrite V. destruct (salary_feature_value b p feat); simpl; auto.
Qed.

Lemma career_row_loop_agree (a b : Assets) (p : Profile)
  (feats : list string) :
  agree_on_used a b ->
  forall X, career_row_loop a p feats X = career_row_loop b p feats X.
Proof.
  intros (_ & _ & _ & _ & _ & H).
  assert (V : forall feat,
             career_feature_value a p feat = career_feature_value b p feat).
  { intros feat. unfold career_feature_value.
    now rewrite (H "current_job_title") by (simpl; tauto). }
  induction feats as [|feat rest IH]; intros X; simpl; [reflexivity|].
  rewrite V. destruct (career_feature_value b p feat); simpl; auto.
Qed.

Lemma analysis_agree (a b : Assets) (p : Profile) :
  agree_on_used a b -> analysis a p = analysis b p.
Proof.
  intros H. pose proof H as (Hsm & Hcm & Hsc & Hfs & Hfc & He).
  assert (S : resolve_salary a p = resolve_salary b p).
  { unfold resolve_salary, model_salary, build_salary_row.
    rewrite Hsm, Hsc, Hfs.
    destruct (schema_items (feat_salary b)) as [feats|e]; [|reflexivity].
    cbn [bind]. now rewrite (salary_row_loop_agree a b p feats H). }
  assert (C : career_preview a p = career_preview b p).
  { unfold career_preview, model_preview, decode_label.
    rewrite Hcm, Hsc, Hfc, (He "target_job_title") by (simpl; tauto).
    destruct (schema_items (feat_career b)) as [feats|e]; [|reflexivity].
    cbn [bind]. now rewrite (career_row_loop_agree a b p feats H). }
  unfold analysis. now rewrite S, C.
Qed.

(** Of the seven encoders the loading block asks for, the script reads
    three (current job, target job, education): adding, removing or
    changing any other encoder changes nothing in the outcome. *)
Theorem unused_encoders_ignored (a b : Assets) (analyze : bool) (p : Profile) :
  agree_on_used a b -> script a analyze p = script b analyze p.
Proof.
  intros H. unfold script. destruct (negb analyze); [reflexivity|].
  destruct (validate p) as [errors p'].
  destruct errors; [|reflexivity].
  now rewrite (analysis_agree a b p' H).
Qed.

Lemma unused_encoders_ignored_witness :
  script assets_role_encoder true chosen_profile =
  script assets_extra_encoder true chosen_profile.
Proof.
  apply (unused_encoders_ignored assets_role_encoder assets_extra_encoder).
  unfold agree_on_used. repeat split.
  intros name [<-|[<-|[<-|[]]]]; reflexivity.
Defined.

(** Leaving the certifications box at "Select..." gives the same outcome
    as choosing "None". *)
Theorem blank_certifications_as_none (a : Assets) (analyze : bool)
  (p : Profile) :
  certifications p = "Select..." ->
  script a analyze p = script a analyze (with_certifications p "None").
Proof.
  intros H. unfold script.
  destruct (negb analyze); [reflexivity|].
  destruct p as [cj tj ed ps ce lp rp ye pc cr sk].
  cbn [certifications] in H. subst ce.
  unfold validate, with_certifications. cbn. reflexivity.
Qed.

Lemma blank_certifications_as_none_witness :
  script no_assets true sample_profile =
  script no_assets true (with_certifications sample_profile "None").
Proof.
  apply (blank_certifications_as_none no_assets true sample_profile).
  reflexivity.
Defined.
